(** * SmartLedger: transaction store, aggregation engine and AI bridge

    A shallow embedding of the ledger application's logic:
    - the JavaScript values the code computes with (numbers, strings, arrays);
    - the transaction store ([addTransaction], [deleteTransaction]);
    - the aggregation engine ([stats], [reportStats] and the values the
      report view derives from them);
    - the AI bridge ([parseNaturalLanguage], [analyzeSpending]) as programs
      that may issue one request to the text-generation service.

    Numbers.  Two embeddings of the JavaScript numbers are used.
    - [JS.number]: an exact rational or one of the three special values
      [Infinity], [-Infinity], [NaN].  Finite arithmetic is exact here, so
      this embedding carries only statements that do not depend on how a
      sum, a quotient or a product rounds: which records an operation
      keeps, in which order, which fields it fills, which request it
      sends, and figures stated as the code's own left-to-right sums.
    - [F64]: the binary64 numbers themselves (primitive floats), with
      rounding, overflow and the sign of zero.  Statements that compare
      sums taken in different orders, or that round a quotient, are made
      on this embedding.

    Strings are byte strings; the strings the code inspects (dates, decimal
    digits, base-36 tokens) are ASCII. *)

From Stdlib Require Import ZArith QArith Qcanon Qround.
From Stdlib Require Import List String Ascii DecimalString.
From Stdlib Require Import Bool Lia Permutation Sorted.
From Stdlib Require Import DecimalZ Floats.
Import ListNotations.

Set Implicit Arguments.

(* ================================================================== *)
(** ** JavaScript numbers *)
(* ================================================================== *)

Module JS.

Inductive number : Type :=
| Fin (q : Qc)
| PosInf
| NegInf
| NaN.

Definition zero : number := Fin (Q2Qc 0).
Definition of_Z (z : Z) : number := Fin (Q2Qc (inject_Z z)).

Definition Qc_sign (q : Qc) : comparison := Qccompare q (Q2Qc 0).

(** [x + y] *)
Definition add (x y : number) : number :=
  match x, y with
  | NaN, _ | _, NaN => NaN
  | Fin a, Fin b => Fin (a + b)%Qc
  | PosInf, NegInf | NegInf, PosInf => NaN
  | PosInf, _ | _, PosInf => PosInf
  | NegInf, _ | _, NegInf => NegInf
  end.

(** [-x] *)
Definition neg (x : number) : number :=
  match x with
  | Fin a => Fin (- a)%Qc
  | PosInf => NegInf
  | NegInf => PosInf
  | NaN => NaN
  end.

(** [x - y] *)
Definition sub (x y : number) : number := add x (neg y).

(** The infinity whose sign is the product of two signs; [Eq] stands for a
    zero factor. *)
Definition signed_inf (s1 s2 : comparison) : number :=
  match s1, s2 with
  | Eq, _ | _, Eq => NaN
  | Gt, Gt | Lt, Lt => PosInf
  | Gt, Lt | Lt, Gt => NegInf
  end.

(** [x * y] *)
Definition mul (x y : number) : number :=
  match x, y with
  | NaN, _ | _, NaN => NaN
  | Fin a, Fin b => Fin (a * b)%Qc
  | Fin a, PosInf | PosInf, Fin a => signed_inf (Qc_sign a) Gt
  | Fin a, NegInf | NegInf, Fin a => signed_inf (Qc_sign a) Lt
  | PosInf, PosInf | NegInf, NegInf => PosInf
  | PosInf, NegInf | NegInf, PosInf => NegInf
  end.

(** [x / y].  A finite nonzero number divided by zero is an infinity, zero
    divided by zero is [NaN]; the zero divisor is taken as [+0]. *)
Definition div (x y : number) : number :=
  match x, y with
  | NaN, _ | _, NaN => NaN
  | Fin a, Fin b =>
      match Qc_sign b with
      | Eq => match Qc_sign a with
              | Eq => NaN
              | Gt => PosInf
              | Lt => NegInf
              end
      | _ => Fin (a / b)%Qc
      end
  | Fin _, PosInf | Fin _, NegInf => zero
  | PosInf, Fin b => match Qc_sign b with Lt => NegInf | _ => PosInf end
  | NegInf, Fin b => match Qc_sign b with Lt => PosInf | _ => NegInf end
  | PosInf, PosInf | PosInf, NegInf | NegInf, PosInf | NegInf, NegInf => NaN
  end.

(** [x > y]: false as soon as an operand is [NaN]. *)
Definition gt (x y : number) : bool :=
  match x, y with
  | NaN, _ | _, NaN => false
  | Fin a, Fin b => match Qccompare a b with Gt => true | _ => false end
  | PosInf, PosInf => false
  | PosInf, _ => true
  | _, PosInf => false
  | NegInf, _ => false
  | Fin _, NegInf => true
  end.

(** [x >= y] *)
Definition ge (x y : number) : bool :=
  match x, y with
  | NaN, _ | _, NaN => false
  | Fin a, Fin b => match Qccompare a b with Lt => false | _ => true end
  | PosInf, _ => true
  | _, NegInf => true
  | Fin _, PosInf | NegInf, PosInf | NegInf, Fin _ => false
  end.

(** [x === y] on numbers: [NaN] equals nothing. *)
Definition strictEq (x y : number) : bool :=
  match x, y with
  | Fin a, Fin b => Qc_eq_bool a b
  | PosInf, PosInf | NegInf, NegInf => true
  | _, _ => false
  end.

(** [Number.isFinite(x)] *)
Definition isFinite (x : number) : bool :=
  match x with Fin _ => true | _ => false end.

(** [Number.isNaN(x)] *)
Definition isNaN (x : number) : bool :=
  match x with NaN => true | _ => false end.

(** Truthiness of a number: every number but [0] and [NaN]. *)
Definition truthy (x : number) : bool :=
  match x with
  | NaN => false
  | Fin a => match Qc_sign a with Eq => false | _ => true end
  | _ => true
  end.

(** [Math.round(x)]: the nearest integer, a half going up. *)
Definition Math_round (x : number) : number :=
  match x with
  | Fin a => of_Z (Qfloor (a + Q2Qc (1 # 2))%Qc)
  | _ => x
  end.

End JS.

(* ================================================================== *)
(** ** JavaScript strings and arrays *)
(* ================================================================== *)

Module Str.

Local Open Scope string_scope.

(** [s.startsWith(p)] *)
Definition startsWith (s p : string) : bool := String.prefix p s.

(** [s.substr(start, len)] for non-negative arguments. *)
Definition substr (start len : nat) (s : string) : string :=
  String.substring start len s.

(** [s.substring(0, stop)] *)
Definition substring0 (stop : nat) (s : string) : string :=
  String.substring 0 stop s.

(** [s.split(c)[0]] for a one-character separator: the part of [s] before
    the first [c], all of [s] when [c] does not occur. *)
Fixpoint split_head (c : ascii) (s : string) : string :=
  match s with
  | EmptyString => EmptyString
  | String a r => if Ascii.eqb a c then EmptyString else String a (split_head c r)
  end.

(** [n] characters taken from [rest] and then from [pad] over and over. *)
Fixpoint cycle (n : nat) (pad rest : string) : string :=
  match n with
  | O => EmptyString
  | S n' =>
      match rest with
      | String c r => String c (cycle n' pad r)
      | EmptyString =>
          match pad with
          | String c r => String c (cycle n' pad r)
          | EmptyString => EmptyString
          end
      end
  end.

(** [s.padStart(targetLength, pad)] *)
Definition padStart (targetLength : nat) (pad s : string) : string :=
  if Nat.leb targetLength (String.length s) then s
  else cycle (targetLength - String.length s) pad pad ++ s.

(** [n.toString()] for an integer [n]. *)
Definition of_int (n : Z) : string := NilZero.string_of_int (Z.to_int n).

(** [a.join(sep)] on an array of strings. *)
Fixpoint join (sep : string) (a : list string) : string :=
  match a with
  | [] => EmptyString
  | [s] => s
  | s :: r => s ++ sep ++ join sep r
  end.

(** The truthiness test of [s || d] on strings: every string but the empty
    one. *)
Definition truthy (s : string) : bool :=
  match s with EmptyString => false | _ => true end.

End Str.

Module Arr.

(** [a.slice(start)]: a negative [start] counts from the end of the
    array. *)
Definition slice_from {A : Type} (start : Z) (a : list A) : list A :=
  let len := Z.of_nat (List.length a) in
  let k := if (start <? 0)%Z then Z.max (len + start) 0 else Z.min start len in
  skipn (Z.to_nat k) a.

(** [a.slice(0, stop)] for a non-negative [stop]. *)
Definition slice_to {A : Type} (stop : nat) (a : list A) : list A :=
  firstn stop a.

(** [a.reduce(f, init)] *)
Definition reduce {A B : Type} (f : B -> A -> B) (init : B) (a : list A) : B :=
  fold_left f a init.

(** One step of a stable sort: [x], which stood before every element of
    the sorted array [sorted], moves right past the elements the comparison
    function places strictly before it: [comparefn x y > 0]. *)
Fixpoint sort_insert {A : Type} (comparefn : A -> A -> JS.number)
    (x : A) (sorted : list A) : list A :=
  match sorted with
  | [] => [x]
  | y :: ys =>
      if JS.gt (comparefn x y) JS.zero
      then y :: sort_insert comparefn x ys
      else x :: y :: ys
  end.

(** [a.sort(comparefn)].  The language makes the sort stable and, for a
    consistent comparison function, its result is the one sorted stable
    rearrangement of the array; insertion from the right computes it, a
    [NaN] returned by the comparison function counting as [0].  For a
    comparison function that is not consistent (subtraction of values is
    not when one of them is [NaN]) the language leaves the order to the
    implementation: the result below is then one of the permitted orders,
    and statements about order are made only for consistent comparisons
    or for all rearrangements of the array. *)
Definition sort {A : Type} (comparefn : A -> A -> JS.number) (a : list A)
  : list A :=
  fold_right (sort_insert comparefn) [] a.

(** [Array.from({ length: n }, (_, i) => f(i))] *)
Definition from_length {A : Type} (n : nat) (f : nat -> A) : list A :=
  map f (seq 0 n).

End Arr.

(* ================================================================== *)
(** ** Data model *)
(* ================================================================== *)

Local Open Scope string_scope.

(** [type TransactionType = 'income' | 'expense']: the two strings the
    type declares, which are the ones the form sets and the parser's
    schema asks for.  The type is not checked at run time; a record whose
    [type] is another string is outside this embedding. *)
Inductive TransactionType : Type := income | expense.

Definition TransactionType_eqb (a b : TransactionType) : bool :=
  match a, b with
  | income, income | expense, expense => true
  | _, _ => false
  end.

Record Transaction : Type := mkTransaction {
  id : string;
  date : string;
  amount : JS.number;
  category : string;
  type : TransactionType;
  note : string
}.

(** [Partial<Transaction>]: every field may be missing. *)
Record PartialTransaction : Type := mkPartial {
  p_id : option string;
  p_date : option string;
  p_amount : option JS.number;
  p_category : option string;
  p_type : option TransactionType;
  p_note : option string
}.

Record AIAnalysis : Type := mkAnalysis {
  summary : string;
  recommendations : list string
}.

(** An entry of [categoryData] and [yearlyCategoryData]. *)
Record CategoryEntry : Type := mkEntry {
  name : string;
  value : JS.number
}.

(** An entry of [monthlyData]. *)
Record MonthEntry : Type := mkMonth {
  m_name : string;
  m_income : JS.number;
  m_expense : JS.number
}.

(* ================================================================== *)
(** ** Transaction store *)
(* ================================================================== *)

(** [s || d] on an optional string: a missing and an empty string both give
    way to [d]. *)
Definition str_or (s : option string) (d : string) : string :=
  match s with
  | Some v => if Str.truthy v then v else d
  | None => d
  end.

(** [Number(x)] on an optional number: [Number(undefined)] is [NaN]. *)
Definition Number (x : option JS.number) : JS.number :=
  match x with
  | Some v => v
  | None => JS.NaN
  end.

(** [x || d] on numbers. *)
Definition num_or (x d : JS.number) : JS.number :=
  if JS.truthy x then x else d.

(** [x || d] on an optional transaction type: both types are truthy. *)
Definition type_or (x : option TransactionType) (d : TransactionType)
  : TransactionType :=
  match x with
  | Some v => v
  | None => d
  end.

(** The record [addTransaction] builds.  [random36] is the text of
    [Math.random().toString(36)] and [nowISO] that of
    [new Date().toISOString()] at the call. *)
Definition newTransaction (random36 nowISO : string) (t : PartialTransaction)
  : Transaction :=
  {| id := Str.substr 2 9 random36;
     date := str_or (p_date t) (Str.split_head "T" nowISO);
     amount := num_or (Number (p_amount t)) JS.zero;
     category := str_or (p_category t) "其它";
     type := type_or (p_type t) expense;
     note := str_or (p_note t) "" |}.

(** [addTransaction(t)], as the update of the list it installs:
    [prev => [newTransaction, ...prev]]. *)
Definition addTransaction (random36 nowISO : string) (t : PartialTransaction)
    (prev : list Transaction) : list Transaction :=
  newTransaction random36 nowISO t :: prev.

(** [deleteTransaction(id)].  [confirmed] is the answer of
    [window.confirm]; the list is updated by
    [prev => prev.filter(t => t.id !== id)] only when it is [true]. *)
Definition deleteTransaction (confirmed : bool) (i : string)
    (prev : list Transaction) : list Transaction :=
  if confirmed
  then filter (fun t => negb (String.eqb (id t) i)) prev
  else prev.

(* ================================================================== *)
(** ** Aggregation engine *)
(* ================================================================== *)

Definition isIncome (t : Transaction) : bool :=
  TransactionType_eqb (type t) income.

Definition isExpense (t : Transaction) : bool :=
  TransactionType_eqb (type t) expense.

(** [ts.reduce((sum, t) => sum + t.amount, 0)] *)
Definition sumAmount (ts : list Transaction) : JS.number :=
  Arr.reduce (fun sum t => JS.add sum (amount t)) JS.zero ts.

(** [existing.value += amt] on the entry [acc.find] returned, the first one
    named [cat]; the entry is updated in place. *)
Fixpoint bump (cat : string) (amt : JS.number) (acc : list CategoryEntry)
  : list CategoryEntry :=
  match acc with
  | [] => []
  | item :: rest =>
      if String.eqb (name item) cat
      then {| name := name item; value := JS.add (value item) amt |} :: rest
      else item :: bump cat amt rest
  end.

(** The reducer of the category aggregation. *)
Definition categoryStep (acc : list CategoryEntry) (t : Transaction)
  : list CategoryEntry :=
  match find (fun item => String.eqb (name item) (category t)) acc with
  | Some _ => bump (category t) (amount t) acc
  | None => acc ++ [ {| name := category t; value := amount t |} ]
  end.

(** [ts.filter(t => t.type === 'expense').reduce(..., [])] *)
Definition categoryAggregate (ts : list Transaction) : list CategoryEntry :=
  Arr.reduce categoryStep [] (filter isExpense ts).

Record Stats : Type := mkStats {
  s_income : JS.number;
  s_expense : JS.number;
  s_balance : JS.number;
  categoryData : list CategoryEntry
}.

(** The dashboard statistics of the current month. *)
Definition stats (nowISO : string) (transactions : list Transaction) : Stats :=
  let currentMonth := Str.substring0 7 nowISO in
  let thisMonthTransactions :=
    filter (fun t => Str.startsWith (date t) currentMonth) transactions in
  let inc := sumAmount (filter isIncome thisMonthTransactions) in
  let exp := sumAmount (filter isExpense thisMonthTransactions) in
  {| s_income := inc;
     s_expense := exp;
     s_balance := JS.sub inc exp;
     categoryData := categoryAggregate thisMonthTransactions |}.

Record ReportStats : Type := mkReport {
  monthlyData : list MonthEntry;
  yearlyCategoryData : list CategoryEntry;
  totalYearIncome : JS.number;
  totalYearExpense : JS.number
}.

(** The two-digit month of index [i], [(i + 1).toString().padStart(2, '0')]. *)
Definition monthOf (i : nat) : string :=
  Str.padStart 2 "0" (Str.of_int (Z.of_nat (i + 1))).

(** The entry [monthlyData] holds at index [i]. *)
Definition monthEntry (yearStr : string) (yearTransactions : list Transaction)
    (i : nat) : MonthEntry :=
  let month := monthOf i in
  let monthLabel := month ++ "月" in
  let monthPrefix := yearStr ++ "-" ++ month in
  let monthTrans :=
    filter (fun t => Str.startsWith (date t) monthPrefix) yearTransactions in
  {| m_name := monthLabel;
     m_income := sumAmount (filter isIncome monthTrans);
     m_expense := sumAmount (filter isExpense monthTrans) |}.

(** The comparison function of the category sort, [(a, b) => b.value - a.value]. *)
Definition byValueDesc (a b : CategoryEntry) : JS.number :=
  JS.sub (value b) (value a).

(** The report statistics of the year [reportYear]. *)
Definition reportStats (reportYear : Z) (transactions : list Transaction)
  : ReportStats :=
  let yearStr := Str.of_int reportYear in
  let yearTransactions :=
    filter (fun t => Str.startsWith (date t) yearStr) transactions in
  {| monthlyData := Arr.from_length 12 (monthEntry yearStr yearTransactions);
     yearlyCategoryData :=
       Arr.sort byValueDesc (categoryAggregate yearTransactions);
     totalYearIncome := sumAmount (filter isIncome yearTransactions);
     totalYearExpense := sumAmount (filter isExpense yearTransactions) |}.

(** The number the report view shows as the savings rate; the view appends
    a percent sign.  The guard is [totalYearIncome > 0], and the other
    branch shows the literal [0]. *)
Definition savingsRate (r : ReportStats) : JS.number :=
  if JS.gt (totalYearIncome r) JS.zero
  then JS.Math_round
         (JS.mul (JS.div (JS.sub (totalYearIncome r) (totalYearExpense r))
                         (totalYearIncome r))
                 (JS.of_Z 100))
  else JS.zero.

(** The number shown next to a category of the report,
    [Math.round((item.value / totalYearExpense) * 100)]. *)
Definition categoryPercent (r : ReportStats) (item : CategoryEntry) : JS.number :=
  JS.Math_round (JS.mul (JS.div (value item) (totalYearExpense r)) (JS.of_Z 100)).

(** The percentages of the report's category list, one for each of the
    first five entries of [yearlyCategoryData]. *)
Definition categoryPercents (r : ReportStats) : list JS.number :=
  map (categoryPercent r) (Arr.slice_to 5 (yearlyCategoryData r)).

(* ================================================================== *)
(** ** Reference definitions of the aggregates

    These follow the wording of the specification, not the code; the
    theorems below compare the code with them. *)
(* ================================================================== *)

(** The distinct labels of a list, each at the place of its first
    occurrence. *)
Fixpoint firstSeen (cats : list string) : list string :=
  match cats with
  | [] => []
  | c :: rest => c :: filter (fun d => negb (String.eqb d c)) (firstSeen rest)
  end.

(** One entry per distinct category, in first-seen order, holding the sum
    of the amounts of the transactions of that category. *)
Definition aggregateSpec (ts : list Transaction) : list CategoryEntry :=
  map (fun c =>
         {| name := c;
            value := sumAmount (filter (fun t => String.eqb (category t) c) ts) |})
      (firstSeen (map category ts)).

(** The two-digit months of a year, in calendar order. *)
Definition months : list string :=
  ["01"; "02"; "03"; "04"; "05"; "06"; "07"; "08"; "09"; "10"; "11"; "12"].

(** The transactions of type [ty] whose date starts with [pfx]. *)
Definition ofTypeWithPrefix (ty : TransactionType) (pfx : string)
    (ts : list Transaction) : list Transaction :=
  filter (fun t => TransactionType_eqb (type t) ty && Str.startsWith (date t) pfx) ts.

(** [amount >= 0] *)
Definition nonNegative (t : Transaction) : bool := JS.ge (amount t) JS.zero.

(* ================================================================== *)
(** ** AI bridge *)
(* ================================================================== *)

Module Bridge.

(** What a call of [ai.models.generateContent] is given. *)
Record Request : Type := mkRequest {
  model : string;
  contents : string;
  required : list string
}.

(** What comes of the call and of reading [response.text]: a text, or an
    exception. *)
Inductive Response : Type :=
| Threw
| Text (s : string).

(** A computation that ends with a value after some calls of the service. *)
Inductive Service (A : Type) : Type :=
| Ret (a : A)
| GenerateContent (req : Request) (k : Response -> Service A).

Arguments Ret {A} a.
Arguments GenerateContent {A} req k.

Fixpoint bind {A B : Type} (p : Service A) (f : A -> Service B) : Service B :=
  match p with
  | Ret a => f a
  | GenerateContent req k => GenerateContent req (fun r => bind (k r) f)
  end.

(** Runs a computation against a service; the requests issued are returned
    in the order of issue. *)
Fixpoint run {A : Type} (service : Request -> Response) (p : Service A)
  : A * list Request :=
  match p with
  | Ret a => (a, [])
  | GenerateContent req k =>
      let (a, log) := run service (k (service req)) in (a, req :: log)
  end.

Definition newline : string := String (ascii_of_nat 10) EmptyString.
Definition dquote : string := String (ascii_of_nat 34) EmptyString.

(** The request of [parseNaturalLanguage]. *)
Definition parseRequest (text : string) : Request :=
  {| model := "gemini-3-flash-preview";
     contents := "將以下記帳描述解析為 JSON 格式： " ++ dquote ++ text ++ dquote;
     required := ["amount"; "type"] |}.

Section WithRuntime.

(** The template rendering of a number, [`${x}`]. *)
Variable Number_toString : JS.number -> string.

(** [s.trim()] *)
Variable String_trim : string -> string.

(** [JSON.parse] at the two result types; [None] when it throws or yields
    [null]. *)
Variable JSON_parse_transaction : string -> option PartialTransaction.
Variable JSON_parse_analysis : string -> option AIAnalysis.

(** The [try]/[catch] around a request: an exception anywhere gives [null]. *)
Definition parsed {A : Type} (parse : string -> option A) (r : Response)
  : option A :=
  match r with
  | Threw => None
  | Text s => parse (String_trim s)
  end.

Definition parseNaturalLanguage (text : string)
  : Service (option PartialTransaction) :=
  GenerateContent (parseRequest text)
    (fun r => Ret (parsed JSON_parse_transaction r)).

(** The line of the analysis request that renders one transaction. *)
Definition renderLine (t : Transaction) : string :=
  date t ++ ": " ++ (if TransactionType_eqb (type t) expense then "-" else "+")
    ++ Number_toString (amount t) ++ " (" ++ category t ++ ") - " ++ note t.

(** The transactions the analysis request is built from,
    [transactions.slice(-20)]. *)
Definition analysisWindow (transactions : list Transaction) : list Transaction :=
  Arr.slice_from (-20) transactions.

Definition analysisSummary (transactions : list Transaction) : string :=
  Str.join newline (map renderLine (analysisWindow transactions)).

Definition analysisRequest (transactions : list Transaction) : Request :=
  {| model := "gemini-3-flash-preview";
     contents := "作為專業理財顧問，請分析以下最近的記帳記錄並提供建議："
                   ++ newline ++ analysisSummary transactions;
     required := ["summary"; "recommendations"] |}.

Definition analyzeSpending (transactions : list Transaction)
  : Service (option AIAnalysis) :=
  if Nat.eqb (List.length transactions) 0 then Ret None
  else GenerateContent (analysisRequest transactions)
         (fun r => Ret (parsed JSON_parse_analysis r)).

(** [handleAiInput], as the list it leaves: the text is parsed by the
    service and a result other than [null] is added. *)
Definition handleAiInput (random36 nowISO aiChatInput : string)
    (prev : list Transaction) : Service (list Transaction) :=
  if Str.truthy (String_trim aiChatInput)
  then bind (parseNaturalLanguage aiChatInput)
         (fun result =>
            match result with
            | Some t => Ret (addTransaction random36 nowISO t prev)
            | None => Ret prev
            end)
  else Ret prev.

End WithRuntime.

End Bridge.

(* ================================================================== *)
(** ** Vocabulary of the statements *)
(* ================================================================== *)

Local Open Scope list_scope.

(** The sum of [f] over a list, taken from the left as [reduce] does. *)
Definition total {A : Type} (f : A -> JS.number) (l : list A) : JS.number :=
  fold_left (fun sum x => JS.add sum (f x)) l JS.zero.

(** The entry of category [c] in the reference aggregate of [ts]. *)
Definition entryOf (ts : list Transaction) (c : string) : CategoryEntry :=
  {| name := c;
     value := sumAmount (filter (fun t => String.eqb (category t) c) ts) |}.


(** The value of the entry is a number, not [NaN]. *)
Definition hasNumber (e : CategoryEntry) : Prop := JS.isNaN (value e) = false.

Definition finiteAmount (t : Transaction) : Prop := JS.isFinite (amount t) = true.


(** The transactions of the report year. *)
Definition inYear (reportYear : Z) (transactions : list Transaction)
  : list Transaction :=
  filter (fun t => Str.startsWith (date t) (Str.of_int reportYear)) transactions.

(** The transactions of the current month. *)
Definition inMonth (nowISO : string) (transactions : list Transaction)
  : list Transaction :=
  filter (fun t => Str.startsWith (date t) (Str.substring0 7 nowISO)) transactions.

(** The entry the specification gives month [mm] of the report year. *)
Definition monthSpec (reportYear : Z) (transactions : list Transaction)
    (mm : string) : MonthEntry :=
  let pfx := (Str.of_int reportYear ++ "-" ++ mm)%string in
  {| m_name := (mm ++ "月")%string;
     m_income := sumAmount (ofTypeWithPrefix income pfx transactions);
     m_expense := sumAmount (ofTypeWithPrefix expense pfx transactions) |}.

(** The candidate's amount is missing, [NaN] or at least [0]. *)
Definition amountAcceptable (t : PartialTransaction) : bool :=
  match p_amount t with
  | Some x => JS.isNaN x || JS.ge x JS.zero
  | None => true
  end.

(** The record is not the one of id [i]. *)
Definition keeps (i : string) (t : Transaction) : bool :=
  negb (String.eqb (id t) i).

(* ================================================================== *)
(** ** Sample ledgers *)
(* ================================================================== *)

(** A candidate as the entry form submits it. *)
Definition candidate (d : string) (a : Z) (c : string) (ty : TransactionType)
  : PartialTransaction :=
  {| p_id := None; p_date := Some d; p_amount := Some (JS.of_Z a);
     p_category := Some c; p_type := Some ty; p_note := None |}.

(** [n] expenses added one a day from 2024-01-01 on; the latest added is
    at the head of the list. *)
Fixpoint ledgerOf (n : nat) : list Transaction :=
  match n with
  | O => []
  | S k =>
      let day := monthOf k in
      addTransaction ("0.tx" ++ day ++ "qk3v9z") "2024-02-01T08:00:00.000Z"
        (candidate ("2024-01-" ++ day) (Z.of_nat (S k)) "飲食" expense)
        (ledgerOf k)
  end.

Definition ledger21 : list Transaction := ledgerOf 21.

(** One expense added without an amount. *)
Definition zeroExpenseLedger : list Transaction :=
  addTransaction "0.k3v9zq1x7mb" "2024-05-01T09:30:00.000Z"
    {| p_id := None; p_date := None; p_amount := None;
       p_category := Some "飲食"; p_type := Some expense; p_note := None |}
    [].

Definition decemberLedger : list Transaction :=
  addTransaction "0.h2m8c4w0tpa" "2024-12-24T18:00:00.000Z"
    (candidate "2024-12-24" 50 "購物" expense) [].

Definition sampleLedger : list Transaction :=
  addTransaction "0.r7d1n5y3kfe" "2024-03-12T12:00:00.000Z"
    (candidate "2024-03-10" 40 "飲食" expense)
    (addTransaction "0.b9x4j6s2lgu" "2024-03-12T11:00:00.000Z"
       (candidate "2024-03-05" 100 "薪資" income) []).

Definition tiedLedger : list Transaction :=
  addTransaction "0.c1c1c1c1c1c" "2024-04-04T10:00:00.000Z"
    (candidate "2024-04-04" 10 "飲食" expense)
    (addTransaction "0.b2b2b2b2b2b" "2024-04-03T10:00:00.000Z"
       (candidate "2024-04-03" 30 "購物" expense)
       (addTransaction "0.a3a3a3a3a3a" "2024-04-02T10:00:00.000Z"
          (candidate "2024-04-02" 30 "交通" expense) [])).

(* ================================================================== *)
(** ** The analysis panel *)
(* ================================================================== *)

Module App.

(** The state the analysis handler reads and writes. *)
Record State : Type := mkState {
  transactions : list Transaction;
  loading : bool;
  aiAnalysis : option AIAnalysis
}.

(** The [disabled] attribute of the analysis button,
    [loading || transactions.length < 3]. *)
Definition analysisDisabled (st : State) : bool :=
  loading st || Nat.ltb (List.length (transactions st)) 3.

Section WithRuntime.

Variable Number_toString : JS.number -> string.
Variable String_trim : string -> string.
Variable JSON_parse_analysis : string -> option AIAnalysis.

(** [requestAnalysis], as the state it leaves: the analysis is replaced by
    what [analyzeSpending] returns and [loading] is false again. *)
Definition requestAnalysis (st : State) : Bridge.Service State :=
  Bridge.bind
    (Bridge.analyzeSpending Number_toString String_trim JSON_parse_analysis
       (transactions st))
    (fun analysis =>
       Bridge.Ret {| transactions := transactions st;
                     loading := false;
                     aiAnalysis := analysis |}).

End WithRuntime.

End App.

(* ================================================================== *)
(** ** More vocabulary *)
(* ================================================================== *)

(** The date of the transaction starts with the report year, a dash and one
    of the twelve months. *)
Definition datedInMonth (reportYear : Z) (t : Transaction) : bool :=
  existsb (fun mm => Str.startsWith (date t) (Str.of_int reportYear ++ "-" ++ mm)%string)
          months.


(* ================================================================== *)
(** ** The figures over binary64 numbers

    The same code as above, with [number] taken as the binary64 floating
    point numbers the program computes with: additions round, sums can
    overflow to an infinity, and the sign of zero is there.  Statements
    that depend on how numbers round are made on this embedding. *)
(* ================================================================== *)

Module F64.

Definition zero : float := 0%float.

(** The integer [z], for [|z| <= 2^53]. *)
Definition of_Z (z : Z) : float :=
  if (z <? 0)%Z then PrimFloat.opp (PrimFloat.of_uint63 (Uint63.of_Z (- z)))
  else PrimFloat.of_uint63 (Uint63.of_Z z).

(** The decimal literal [n / d] for integers [n] and [d] that binary64
    holds exactly: the literal denotes the number nearest the quotient, which
    is what the division returns.  [0.1] is [ratio 1 10]. *)
Definition ratio (n d : Z) : float := PrimFloat.div (of_Z n) (of_Z d).

(** [x > y] *)
Definition gt (x y : float) : bool := PrimFloat.ltb y x.

(** [x === y] *)
Definition strictEq (x y : float) : bool := PrimFloat.eqb x y.

Definition signedZero (s : bool) : float :=
  if s then PrimFloat.opp zero else zero.

(** [Math.round(x)]: [x] itself when it is an integer, an infinity or
    [NaN]; otherwise the integer nearest [x], the upper one of two equally
    near, with the sign of [x] when that integer is [0].  A number that is
    not an integer is [(-1)^s * m * 2^e] with [e < 0], below [2^52] in
    magnitude, and the integer sought is the floor of [x + 1/2] taken in
    the integers. *)
Definition Math_round (x : float) : float :=
  match Prim2SF x with
  | S754_finite s m e =>
      if (e <? 0)%Z then
        let d := (2 ^ (- e))%Z in
        let sm := if s then Z.neg m else Z.pos m in
        let n := ((2 * sm + d) / (2 * d))%Z in
        if (n =? 0)%Z then signedZero s else of_Z n
      else x
  | _ => x
  end.

Record Transaction : Type := mkTransaction {
  id : string;
  date : string;
  amount : float;
  category : string;
  type : TransactionType;
  note : string
}.

Record CategoryEntry : Type := mkEntry {
  name : string;
  value : float
}.

Record MonthEntry : Type := mkMonth {
  m_name : string;
  m_income : float;
  m_expense : float
}.

Definition isIncome (t : Transaction) : bool :=
  TransactionType_eqb (type t) income.

Definition isExpense (t : Transaction) : bool :=
  TransactionType_eqb (type t) expense.

(** [ts.reduce((sum, t) => sum + t.amount, 0)] *)
Definition sumAmount (ts : list Transaction) : float :=
  Arr.reduce (fun sum t => PrimFloat.add sum (amount t)) zero ts.

(** [existing.value += amt] on the first entry named [cat]. *)
Fixpoint bump (cat : string) (amt : float) (acc : list CategoryEntry)
  : list CategoryEntry :=
  match acc with
  | [] => []
  | item :: rest =>
      if String.eqb (name item) cat
      then {| name := name item; value := PrimFloat.add (value item) amt |} :: rest
      else item :: bump cat amt rest
  end.

(** The reducer of the category aggregation. *)
Definition categoryStep (acc : list CategoryEntry) (t : Transaction)
  : list CategoryEntry :=
  match find (fun item => String.eqb (name item) (category t)) acc with
  | Some _ => bump (category t) (amount t) acc
  | None => acc ++ [ {| name := category t; value := amount t |} ]
  end.

(** [ts.filter(t => t.type === 'expense').reduce(..., [])] *)
Definition categoryAggregate (ts : list Transaction) : list CategoryEntry :=
  Arr.reduce categoryStep [] (filter isExpense ts).

Record Stats : Type := mkStats {
  s_income : float;
  s_expense : float;
  s_balance : float;
  categoryData : list CategoryEntry
}.

(** The dashboard statistics of the current month. *)
Definition stats (nowISO : string) (transactions : list Transaction) : Stats :=
  let currentMonth := Str.substring0 7 nowISO in
  let thisMonthTransactions :=
    filter (fun t => Str.startsWith (date t) currentMonth) transactions in
  let inc := sumAmount (filter isIncome thisMonthTransactions) in
  let exp := sumAmount (filter isExpense thisMonthTransactions) in
  {| s_income := inc;
     s_expense := exp;
     s_balance := PrimFloat.sub inc exp;
     categoryData := categoryAggregate thisMonthTransactions |}.

(** One step of the stable sort, as [Arr.sort_insert], for a comparison
    function that returns a binary64 number. *)
Fixpoint sort_insert {A : Type} (comparefn : A -> A -> float)
    (x : A) (sorted : list A) : list A :=
  match sorted with
  | [] => [x]
  | y :: ys =>
      if gt (comparefn x y) zero
      then y :: sort_insert comparefn x ys
      else x :: y :: ys
  end.

(** [a.sort(comparefn)], as [Arr.sort]. *)
Definition sort {A : Type} (comparefn : A -> A -> float) (a : list A) : list A :=
  fold_right (sort_insert comparefn) [] a.

(** [(a, b) => b.value - a.value] *)
Definition byValueDesc (a b : CategoryEntry) : float :=
  PrimFloat.sub (value b) (value a).

(** The entry [monthlyData] holds at index [i]. *)
Definition monthEntry (yearStr : string) (yearTransactions : list Transaction)
    (i : nat) : MonthEntry :=
  let month := monthOf i in
  let monthLabel := (month ++ "月")%string in
  let monthPrefix := (yearStr ++ "-" ++ month)%string in
  let monthTrans :=
    filter (fun t => Str.startsWith (date t) monthPrefix) yearTransactions in
  {| m_name := monthLabel;
     m_income := sumAmount (filter isIncome monthTrans);
     m_expense := sumAmount (filter isExpense monthTrans) |}.

Record ReportStats : Type := mkReport {
  monthlyData : list MonthEntry;
  yearlyCategoryData : list CategoryEntry;
  totalYearIncome : float;
  totalYearExpense : float
}.

(** The report statistics of the year [reportYear]. *)
Definition reportStats (reportYear : Z) (transactions : list Transaction)
  : ReportStats :=
  let yearStr := Str.of_int reportYear in
  let yearTransactions :=
    filter (fun t => Str.startsWith (date t) yearStr) transactions in
  {| monthlyData := Arr.from_length 12 (monthEntry yearStr yearTransactions);
     yearlyCategoryData := sort byValueDesc (categoryAggregate yearTransactions);
     totalYearIncome := sumAmount (filter isIncome yearTransactions);
     totalYearExpense := sumAmount (filter isExpense yearTransactions) |}.

(** The number the report view shows as the savings rate, before the
    percent sign. *)
Definition savingsRate (r : ReportStats) : float :=
  if gt (totalYearIncome r) zero
  then Math_round
         (PrimFloat.mul
            (PrimFloat.div (PrimFloat.sub (totalYearIncome r) (totalYearExpense r))
                           (totalYearIncome r))
            (of_Z 100))
  else zero.

(** *** Reference definitions, after the wording of the specification *)

(** The numbers of a list added to [acc] one after the other. *)
Fixpoint sumFrom (acc : float) (xs : list float) : float :=
  match xs with
  | [] => acc
  | x :: rest => sumFrom (PrimFloat.add acc x) rest
  end.

(** The sum of a list of numbers, taken from [0] in list order. *)
Definition sumOf (xs : list float) : float := sumFrom zero xs.

(** The sum of a list of numbers that starts from its first number. *)
Definition addUp (xs : list float) : float :=
  match xs with
  | [] => zero
  | x :: rest => sumFrom x rest
  end.

(** The amounts of the transactions of category [c], in list order. *)
Definition amountsOf (c : string) (ts : list Transaction) : list float :=
  map amount (filter (fun t => String.eqb (category t) c) ts).

Definition entryOf (ts : list Transaction) (c : string) : CategoryEntry :=
  {| name := c; value := addUp (amountsOf c ts) |}.

(** One entry per distinct category, in first-seen order, holding the
    amounts of that category added up in list order. *)
Definition aggregateSpec (ts : list Transaction) : list CategoryEntry :=
  map (entryOf ts) (firstSeen (map category ts)).

(** The sum of the [value]s of a list of entries. *)
Definition sumValue (es : list CategoryEntry) : float :=
  sumOf (map value es).

(** The transactions of type [ty] whose date starts with [pfx]. *)
Definition ofTypeWithPrefix (ty : TransactionType) (pfx : string)
    (ts : list Transaction) : list Transaction :=
  filter (fun t => TransactionType_eqb (type t) ty && Str.startsWith (date t) pfx) ts.


Definition yearExpenses (reportYear : Z) (ts : list Transaction) : list Transaction :=
  ofTypeWithPrefix expense (Str.of_int reportYear) ts.

Definition yearIncomes (reportYear : Z) (ts : list Transaction) : list Transaction :=
  ofTypeWithPrefix income (Str.of_int reportYear) ts.

(** [n - 1/2 <= x < n + 1/2] for [x = (-1)^s * m * 2^e] with [e < 0],
    cleared of fractions. *)
Definition nearestHalfUp (s : bool) (m : positive) (e : Z) (n : Z) : Prop :=
  let d := (2 ^ (- e))%Z in
  let sm := if s then Z.neg m else Z.pos m in
  (d * (2 * n - 1) <= 2 * sm < d * (2 * n + 1))%Z.

(** [r] is [x] rounded to an integer as the specification's [round] does:
    the nearest integer, a half going up; [x] itself when it is an integer
    or not a finite number. *)
Definition roundedHalfUp (x r : float) : Prop :=
  match Prim2SF x with
  | S754_finite s m e =>
      if (e <? 0)%Z
      then exists n, nearestHalfUp s m e n
                     /\ r = (if (n =? 0)%Z then signedZero s else of_Z n)
      else r = x
  | _ => r = x
  end.

(** Three expenses in two categories, amounts 0.1, 0.1 and 1.1, dated in
    March 2024. *)
Definition dimes : list Transaction :=
  [ {| id := "c1c1c1c1c"; date := "2024-03-03"; amount := ratio 1 10;
       category := "飲食"; type := expense; note := "" |};
    {| id := "b2b2b2b2b"; date := "2024-03-02"; amount := ratio 1 10;
       category := "交通"; type := expense; note := "" |};
    {| id := "a3a3a3a3a"; date := "2024-03-01"; amount := ratio 11 10;
       category := "飲食"; type := expense; note := "" |} ].

(** An income of 40 and an expense of 17 in 2024. *)
Definition fortySeventeen : list Transaction :=
  [ {| id := "r7d1n5y3k"; date := "2024-03-10"; amount := of_Z 17;
       category := "飲食"; type := expense; note := "" |};
    {| id := "b9x4j6s2l"; date := "2024-03-05"; amount := of_Z 40;
       category := "薪資"; type := income; note := "" |} ].

End F64.

(* ================================================================== *)
(** ** More reference definitions *)
(* ================================================================== *)

(** The numbers of a list added to [acc] one after the other. *)
Fixpoint sumFrom (acc : JS.number) (xs : list JS.number) : JS.number :=
  match xs with
  | [] => acc
  | x :: rest => sumFrom (JS.add acc x) rest
  end.

(** The sum of a list of numbers, taken from [0] in list order. *)
Definition sumOf (xs : list JS.number) : JS.number := sumFrom JS.zero xs.

(** The entry the specification gives month [mm] of the report year: the
    label of the month and the sums of [amount] over the incomes and over
    the expenses whose date starts with the year, a dash and the month. *)
Definition monthFigures (reportYear : Z) (transactions : list Transaction)
    (mm : string) : MonthEntry :=
  let pfx := (Str.of_int reportYear ++ "-" ++ mm)%string in
  {| m_name := (mm ++ "月")%string;
     m_income := sumOf (map amount (ofTypeWithPrefix income pfx transactions));
     m_expense := sumOf (map amount (ofTypeWithPrefix expense pfx transactions)) |}.

(** The character [c] does not occur in [s]. *)
Fixpoint lacks (c : ascii) (s : string) : bool :=
  match s with
  | EmptyString => true
  | String a rest => negb (Ascii.eqb a c) && lacks c rest
  end.

(** A field of the candidate is missing or the empty string. *)
Definition blank (s : option string) : Prop := s = None \/ s = Some EmptyString.





(* ================================================================== *)
(** ** Arithmetic of numbers *)
(* ================================================================== *)

Module JSFacts.
Import JS.

Lemma add_comm (x y : number) : add x y = add y x.
Proof.
  destruct x, y; simpl; try reflexivity.
  now rewrite Qcplus_comm.
Qed.

Lemma add_assoc (x y z : number) : add x (add y z) = add (add x y) z.
Proof.
  destruct x, y, z; simpl; try reflexivity.
  now rewrite Qcplus_assoc.
Qed.

Lemma add_zero_l (x : number) : add zero x = x.
Proof.
  destruct x; simpl; try reflexivity.
  now rewrite Qcplus_0_l.
Qed.

Lemma add_zero_r (x : number) : add x zero = x.
Proof. rewrite add_comm. apply add_zero_l. Qed.








End JSFacts.

(* ---------- lists ---------- *)
Section ListFacts.
Context {A : Type}.

Lemma filter_filter_implied (f g : A -> bool) (l : list A) :
  (forall x, f x = true -> g x = true) ->
  filter f (filter g l) = filter f l.
Proof.
  intros Himp. induction l as [|x l IH]; simpl; [reflexivity|].
  destruct (g x) eqn:Hg; simpl.
  - now rewrite IH.
  - destruct (f x) eqn:Hf; [|exact IH].
    apply Himp in Hf. congruence.
Qed.

Lemma filter_filter_andb (f g : A -> bool) (l : list A) :
  filter f (filter g l) = filter (fun x => f x && g x) l.
Proof.
  induction l as [|x l IH]; simpl; [reflexivity|].
  destruct (g x), (f x) eqn:Hf; simpl; rewrite ?Hf, IH; reflexivity.
Qed.

End ListFacts.

(* ---------- sort ---------- *)
Section SortFacts.
Context {A : Type}.
Variable cmp : A -> A -> JS.number.

Lemma sort_insert_perm (x : A) (s : list A) :
  Permutation (Arr.sort_insert cmp x s) (x :: s).
Proof.
  induction s as [|y ys IH]; simpl; [reflexivity|].
  destruct (JS.gt (cmp x y) JS.zero).
  - rewrite IH. apply perm_swap.
  - reflexivity.
Qed.

Lemma sort_perm (l : list A) : Permutation (Arr.sort cmp l) l.
Proof.
  induction l as [|x l IH]; simpl; [reflexivity|].
  unfold Arr.sort in IH. rewrite sort_insert_perm. now constructor.
Qed.

Variable p : A -> bool.
Hypothesis tied : forall x y,
  p x = true -> p y = true -> JS.gt (cmp x y) JS.zero = false.



End SortFacts.



(* ---------- sums ---------- *)
Section Sums.
Context {A : Type}.
Variable f : A -> JS.number.

Lemma fold_add_from (l : list A) (a : JS.number) :
  fold_left (fun sum x => JS.add sum (f x)) l a = JS.add a (total f l).
Proof.
  unfold total. revert a.
  induction l as [|x l IH]; intros a; cbn [fold_left].
  - now rewrite JSFacts.add_zero_r.
  - rewrite IH, (IH (JS.add JS.zero (f x))).
    now rewrite JSFacts.add_zero_l, JSFacts.add_assoc.
Qed.

Lemma total_cons (x : A) (l : list A) : total f (x :: l) = JS.add (f x) (total f l).
Proof.
  unfold total at 1. cbn [fold_left]. now rewrite fold_add_from, JSFacts.add_zero_l.
Qed.

Lemma total_app (l1 l2 : list A) :
  total f (l1 ++ l2) = JS.add (total f l1) (total f l2).
Proof.
  unfold total at 1. rewrite fold_left_app. apply fold_add_from.
Qed.

Lemma total_finite (l : list A) :
  Forall (fun x => JS.isFinite (f x) = true) l -> JS.isFinite (total f l) = true.
Proof.
  induction 1 as [|x l Hx _ IH]; [reflexivity|].
  rewrite total_cons.
  destruct (f x), (total f l); simpl in *; congruence.
Qed.

End Sums.

(* ---------- find and filter ---------- *)

Lemma find_existsb {A} (p : A -> bool) (l : list A) :
  existsb p l = match find p l with Some _ => true | None => false end.
Proof.
  induction l as [|x l IH]; simpl; [reflexivity|].
  destruct (p x); simpl; auto.
Qed.

Lemma filter_none {A} (f : A -> bool) (l : list A) :
  (forall x, In x l -> f x = false) -> filter f l = [].
Proof.
  induction l as [|x l IH]; intros H; [reflexivity|].
  cbn [filter]. rewrite (H x) by now left.
  apply IH. intros y Hy. apply H. now right.
Qed.

(* ---------- first-seen order ---------- *)

Lemma firstSeen_In c cats : In c (firstSeen cats) <-> In c cats.
Proof.
  induction cats as [|d cats IH]; simpl; [tauto|].
  rewrite filter_In, IH.
  destruct (String.eqb_spec c d) as [->|Hne]; simpl.
  - tauto.
  - split; [tauto|]. intros [->|H]; [congruence|auto].
Qed.

Lemma firstSeen_NoDup cats : NoDup (firstSeen cats).
Proof.
  induction cats as [|d cats IH]; simpl; constructor.
  - rewrite filter_In. intros [_ H]. now rewrite String.eqb_refl in H.
  - now apply NoDup_filter.
Qed.

Lemma firstSeen_snoc cats c :
  firstSeen (cats ++ [c]) =
  if existsb (String.eqb c) cats then firstSeen cats else firstSeen cats ++ [c].
Proof.
  induction cats as [|d cats IH]; [reflexivity|].
  cbn [app firstSeen existsb]. rewrite IH.
  destruct (String.eqb_spec c d) as [->|Hne]; cbn [orb].
  - destruct (existsb (String.eqb d) cats); [reflexivity|].
    rewrite filter_app. cbn [filter]. rewrite String.eqb_refl. cbn [negb].
    now rewrite app_nil_r.
  - destruct (existsb (String.eqb c) cats); [reflexivity|].
    rewrite filter_app. cbn [filter].
    apply String.eqb_neq in Hne. rewrite Hne. reflexivity.
Qed.

Lemma existsb_eqb_In c cats : existsb (String.eqb c) cats = true <-> In c cats.
Proof.
  rewrite existsb_exists. split.
  - intros [x [Hx E]]. apply String.eqb_eq in E. now subst.
  - intros H. exists c. split; [assumption|apply String.eqb_refl].
Qed.

(* ---------- the reducer against the reference aggregate ---------- *)

Lemma aggregateSpec_map ts :
  aggregateSpec ts = map (entryOf ts) (firstSeen (map category ts)).
Proof. reflexivity. Qed.

Lemma entryOf_snoc ts t c :
  entryOf (ts ++ [t]) c =
  if String.eqb (category t) c
  then {| name := c; value := JS.add (value (entryOf ts c)) (amount t) |}
  else entryOf ts c.
Proof.
  unfold entryOf. rewrite filter_app. cbn [filter value].
  destruct (String.eqb (category t) c).
  - f_equal. change sumAmount with (total amount).
    rewrite total_app, total_cons. f_equal.
    unfold total. cbn [fold_left]. apply JSFacts.add_zero_r.
  - now rewrite app_nil_r.
Qed.

Lemma bump_map ts t (L : list string) :
  NoDup L -> In (category t) L ->
  bump (category t) (amount t) (map (entryOf ts) L) = map (entryOf (ts ++ [t])) L.
Proof.
  induction 1 as [|c L Hc HL IH]; intros Hin; [destruct Hin|].
  cbn [map bump]. rewrite entryOf_snoc. cbn [name entryOf].
  rewrite (String.eqb_sym (category t) c).
  destruct (String.eqb_spec c (category t)) as [->|Hne].
  - f_equal. apply map_ext_in. intros d Hd.
    rewrite entryOf_snoc.
    destruct (String.eqb_spec (category t) d) as [<-|]; [contradiction|reflexivity].
  - f_equal. apply IH. destruct Hin; [congruence|assumption].
Qed.

Lemma find_entry ts c (L : list string) :
  find (fun item => String.eqb (name item) c) (map (entryOf ts) L) = None <->
  ~ In c L.
Proof.
  induction L as [|d L IH]; cbn [map find name entryOf]; [tauto|].
  destruct (String.eqb_spec d c) as [->|Hne].
  - split; [discriminate|]. intros H. exfalso. apply H. now left.
  - rewrite IH. simpl. tauto.
Qed.

Lemma categoryStep_spec ts t :
  categoryStep (aggregateSpec ts) t = aggregateSpec (ts ++ [t]).
Proof.
  unfold categoryStep. rewrite !aggregateSpec_map, map_app. cbn [map].
  rewrite firstSeen_snoc.
  pose proof (find_entry ts (category t) (firstSeen (map category ts))) as F.
  pose proof (existsb_eqb_In (category t) (map category ts)) as E.
  rewrite firstSeen_In in F.
  destruct (find _ (map (entryOf ts) _)).
  - destruct (existsb _ (map category ts)).
    + apply bump_map; [apply firstSeen_NoDup|].
      apply firstSeen_In. now apply E.
    + exfalso. assert (H : ~ In (category t) (map category ts)).
      { intros H. apply E in H. discriminate. }
      apply F in H. discriminate.
  - assert (H : ~ In (category t) (map category ts)) by now apply F.
    destruct (existsb _ (map category ts)); [exfalso; apply H; now apply E|].
    rewrite map_app. cbn [map]. f_equal.
    + apply map_ext_in. intros d Hd. rewrite entryOf_snoc.
      destruct (String.eqb_spec (category t) d) as [<-|]; [|reflexivity].
      apply (proj1 (firstSeen_In _ _)) in Hd. contradiction.
    + f_equal. rewrite entryOf_snoc, String.eqb_refl. f_equal.
      unfold entryOf. cbn [value].
      replace (filter (fun t0 => String.eqb (category t0) (category t)) ts)
        with (@nil Transaction).
      * symmetry. apply JSFacts.add_zero_l.
      * symmetry. apply filter_none. intros x Hx.
        destruct (String.eqb_spec (category x) (category t)) as [Heq|]; [|reflexivity].
        exfalso. apply H. rewrite <- Heq. now apply in_map.
Qed.

Lemma reduce_categoryStep ts :
  Arr.reduce categoryStep [] ts = aggregateSpec ts.
Proof.
  unfold Arr.reduce.
  induction ts as [|t ts IH] using rev_ind; [reflexivity|].
  rewrite fold_left_app. cbn [fold_left]. rewrite IH.
  apply categoryStep_spec.
Qed.

Lemma categoryAggregate_spec ts :
  categoryAggregate ts = aggregateSpec (filter isExpense ts).
Proof. apply reduce_categoryStep. Qed.

Lemma categoryAggregate_finite ts :
  Forall (fun t => JS.isFinite (amount t) = true) ts ->
  Forall hasNumber (categoryAggregate ts).
Proof.
  intros H. rewrite categoryAggregate_spec, aggregateSpec_map.
  apply Forall_map, Forall_forall. intros c _.
  unfold hasNumber, entryOf. cbn [value].
  assert (F : JS.isFinite (sumAmount
            (filter (fun t => String.eqb (category t) c) (filter isExpense ts))) = true).
  { apply (total_finite amount). rewrite Forall_forall in *.
    intros x Hx. apply H. apply filter_In in Hx. destruct Hx as [Hx _].
    apply filter_In in Hx. tauto. }
  destruct (sumAmount _); simpl in *; congruence.
Qed.

(* ---------- months ---------- *)

Lemma prefix_app p q s :
  String.prefix (p ++ q)%string s = true -> String.prefix p s = true.
Proof.
  revert s. induction p as [|a p IH]; intros s; [now destruct s|].
  destruct s as [|b s]; cbn [append String.prefix]; [discriminate|].
  destruct (ascii_dec a b); [apply IH|discriminate].
Qed.

Lemma months_monthOf : map monthOf (seq 0 12) = months.
Proof. reflexivity. Qed.

(* ================================================================== *)
(** ** The analysis request *)
(* ================================================================== *)

Lemma slice_from_last (A : Type) (n : nat) (a : list A) :
  Arr.slice_from (- Z.of_nat (S n)) a = skipn (List.length a - S n)%nat a.
Proof.
  unfold Arr.slice_from.
  replace (- Z.of_nat (S n) <? 0)%Z with true by (symmetry; apply Z.ltb_lt; lia).
  f_equal. lia.
Qed.

(** [slice(-20)] keeps the last twenty records of the array, that is, with
    the newest record at the head, the twenty oldest. *)
Lemma analysisWindow_last20 ts :
  Bridge.analysisWindow ts = skipn (List.length ts - 20)%nat ts.
Proof. apply (slice_from_last 19%nat). Qed.

Lemma run_analyzeSpending toStr trim parse service ts :
  ts <> [] ->
  Bridge.run service (Bridge.analyzeSpending toStr trim parse ts) =
  (Bridge.parsed trim parse (service (Bridge.analysisRequest toStr ts)),
   [Bridge.analysisRequest toStr ts]).
Proof.
  intros H. unfold Bridge.analyzeSpending.
  destruct ts as [|t ts]; [congruence|]. reflexivity.
Qed.

(** C1.  On a ledger of twenty-one records added one a day, the newest at
    the head, the one request [analyzeSpending] issues is built from the
    records of 2024-01-20 down to 2024-01-01: the newest record, of
    2024-01-21, is left out and the oldest is in, so the records selected
    are not the twenty newest. *)
Theorem analyzeSpending_sends_oldest_records :
  forall toStr trim parse service,
    map date (firstn 1 ledger21) = ["2024-01-21"]
    /\ List.length ledger21 = 21%nat
    /\ snd (Bridge.run service (Bridge.analyzeSpending toStr trim parse ledger21))
       = [Bridge.analysisRequest toStr ledger21]
    /\ Bridge.analysisSummary toStr ledger21
       = Str.join Bridge.newline (map (Bridge.renderLine toStr) (skipn 1 ledger21))
    /\ map date (Bridge.analysisWindow ledger21)
       = ["2024-01-20"; "2024-01-19"; "2024-01-18"; "2024-01-17"; "2024-01-16";
          "2024-01-15"; "2024-01-14"; "2024-01-13"; "2024-01-12"; "2024-01-11";
          "2024-01-10"; "2024-01-09"; "2024-01-08"; "2024-01-07"; "2024-01-06";
          "2024-01-05"; "2024-01-04"; "2024-01-03"; "2024-01-02"; "2024-01-01"]
    /\ Bridge.analysisWindow ledger21 <> firstn 20 ledger21.
Proof.
  intros toStr trim parse service.
  assert (W : Bridge.analysisWindow ledger21 = skipn 1 ledger21) by reflexivity.
  split; [reflexivity|split; [reflexivity|split; [|split; [|split]]]].
  - rewrite run_analyzeSpending; [reflexivity|discriminate].
  - unfold Bridge.analysisSummary. now rewrite W.
  - reflexivity.
  - rewrite W. intros H. apply (f_equal (map date)) in H.
    vm_compute in H. discriminate H.
Qed.

(** C5.  On the empty list [analyzeSpending] is the computation that
    returns [null] at once: run against any service it yields [null] and
    the list of requests issued is empty. *)
Theorem analyzeSpending_empty :
  forall toStr trim parse service,
    Bridge.analyzeSpending toStr trim parse [] = Bridge.Ret None
    /\ Bridge.run service (Bridge.analyzeSpending toStr trim parse [])
       = (None, []).
Proof. intros. split; reflexivity. Qed.

(** What the service's parser returns is added as it is. *)
Lemma handleAiInput_adds_parsed trim parse random36 nowISO text prev service s t :
  Str.truthy (trim text) = true ->
  service (Bridge.parseRequest text) = Bridge.Text s ->
  parse (trim s) = Some t ->
  fst (Bridge.run service
         (Bridge.handleAiInput trim parse random36 nowISO text prev))
  = addTransaction random36 nowISO t prev.
Proof.
  intros Htext Hs Ht. unfold Bridge.handleAiInput. rewrite Htext.
  unfold Bridge.parseNaturalLanguage. cbn [Bridge.bind Bridge.run].
  fold (Bridge.parseRequest text). rewrite Hs.
  cbn [Bridge.parsed Bridge.bind Bridge.run fst]. now rewrite Ht.
Qed.

(* ================================================================== *)
(** ** The report of a year *)
(* ================================================================== *)

Lemma month_filter yearStr mm (f : Transaction -> bool) ts :
  filter f
    (filter (fun t => Str.startsWith (date t) (yearStr ++ "-" ++ mm)%string)
       (filter (fun t => Str.startsWith (date t) yearStr) ts)) =
  filter (fun t => f t && Str.startsWith (date t) (yearStr ++ "-" ++ mm)%string) ts.
Proof.
  rewrite (@filter_filter_implied _
             (fun t => Str.startsWith (date t) (yearStr ++ "-" ++ mm)%string)).
  - apply filter_filter_andb.
  - intros t. apply prefix_app.
Qed.

(** The scenario of a single December expense of 50. *)
Example monthlyData_december_only :
  map (fun e => (m_name e, JS.strictEq (m_income e) JS.zero,
                 JS.strictEq (m_expense e) JS.zero))
      (monthlyData (reportStats 2024 decemberLedger))
  = [("01月", true, true); ("02月", true, true); ("03月", true, true);
     ("04月", true, true); ("05月", true, true); ("06月", true, true);
     ("07月", true, true); ("08月", true, true); ("09月", true, true);
     ("10月", true, true); ("11月", true, true); ("12月", true, false)]
  /\ map m_expense (skipn 11 (monthlyData (reportStats 2024 decemberLedger)))
     = [JS.of_Z 50].
Proof. split; reflexivity. Qed.

Lemma yearlyCategoryData_perm reportYear transactions :
  Permutation (yearlyCategoryData (reportStats reportYear transactions))
              (aggregateSpec (filter isExpense (inYear reportYear transactions))).
Proof.
  cbn [reportStats yearlyCategoryData].
  rewrite sort_perm, categoryAggregate_spec. reflexivity.
Qed.


(** Two categories of value 30 after one of value 10: the two move to the
    front and keep their order. *)
Example yearlyCategoryData_ties_keep_order :
  map name (aggregateSpec (filter isExpense (inYear 2024 tiedLedger)))
    = ["飲食"; "購物"; "交通"]
  /\ map name (yearlyCategoryData (reportStats 2024 tiedLedger))
    = ["購物"; "交通"; "飲食"].
Proof. split; reflexivity. Qed.

(** Income 100 and expense 40 in 2024 give 60; no income in 2023 gives 0. *)
Example savingsRate_sample :
  savingsRate (reportStats 2024 sampleLedger) = JS.of_Z 60
  /\ savingsRate (reportStats 2023 sampleLedger) = JS.zero.
Proof. split; vm_compute; reflexivity. Qed.

(** With a total expense of [0] no percentage of the category list is a
    finite number, whatever the entry. *)
Lemma categoryPercent_zero_total r item :
  totalYearExpense r = JS.zero ->
  JS.isFinite (categoryPercent r item) = false.
Proof.
  intros H. unfold categoryPercent. rewrite H.
  destruct (value item) as [a| | |]; try reflexivity.
  unfold JS.zero. cbn [JS.div].
  replace (JS.Qc_sign (Q2Qc 0)) with Eq by reflexivity.
  destruct (JS.Qc_sign a); reflexivity.
Qed.

(** C2.  For the ledger of one expense added without an amount, the total
    expense of 2024 is [0], the category list has one entry, and the
    percentage computed for it is [NaN], not [0]; the savings rate of the
    same report is [0]. *)
Theorem categoryPercent_unguarded_zero_expense :
  let r := reportStats 2024 zeroExpenseLedger in
  map amount zeroExpenseLedger = [JS.zero]
  /\ totalYearExpense r = JS.zero
  /\ map name (yearlyCategoryData r) = ["飲食"]
  /\ categoryPercents r = [JS.NaN]
  /\ savingsRate r = JS.zero.
Proof. vm_compute. repeat split. Qed.

(* ================================================================== *)
(** ** The transaction store *)
(* ================================================================== *)

(** A candidate with nothing but an id: the id is not taken over. *)
Example addTransaction_empty_candidate :
  addTransaction "0.k3v9zq1x7mbw" "2024-05-01T09:30:00.000Z"
    {| p_id := Some "mine"; p_date := None; p_amount := None; p_category := None;
       p_type := None; p_note := None |} []
  = [ {| id := "k3v9zq1x7"; date := "2024-05-01"; amount := JS.zero;
         category := "其它"; type := expense; note := "" |} ].
Proof. reflexivity. Qed.

(** A candidate of amount [-5] is stored with amount [-5]. *)
Lemma addTransaction_keeps_negative_amount :
  ~ (forall random36 nowISO t,
       nonNegative (newTransaction random36 nowISO t) = true).
Proof.
  intros H.
  specialize (H "0.k3v9zq1x7mb" "2024-05-01T09:30:00.000Z"
                (candidate "2024-05-01" (-5) "飲食" expense)).
  vm_compute in H. discriminate H.
Qed.

Lemma newTransaction_nonNegative random36 nowISO t :
  nonNegative (newTransaction random36 nowISO t) = amountAcceptable t.
Proof.
  unfold nonNegative, newTransaction, amountAcceptable. cbn [amount].
  destruct (p_amount t) as [[q| | |]|]; try reflexivity.
  cbn [Number JS.isNaN orb]. unfold num_or, JS.truthy, JS.Qc_sign.
  destruct (Qccompare q (Q2Qc 0)) eqn:E; cbn [JS.ge JS.zero]; rewrite ?E;
    reflexivity.
Qed.

(** A deletion the user declines leaves the record of that id in the
    list. *)
Lemma deleteTransaction_declined_keeps_record :
  ~ (forall confirmed i prev,
       Forall (fun t => id t <> i) (deleteTransaction confirmed i prev)).
Proof.
  intros H. specialize (H false "r7d1n5y3k" sampleLedger).
  inversion H as [|x l Hx _]. apply Hx. reflexivity.
Qed.

(** C10, as the code has it.  A deletion the user confirms leaves no record
    of the given id, and the other records are the same, in the same
    order, before and after; the list is unchanged when no record has the
    id.  A deletion the user declines changes nothing. *)
Theorem deleteTransaction_confirmed_spec (i : string) (prev : list Transaction) :
  let next := deleteTransaction true i prev in
  Forall (fun t => id t <> i) next
  /\ filter (keeps i) next = filter (keeps i) prev
  /\ next = filter (keeps i) prev
  /\ (forall t, In t next <-> In t prev /\ id t <> i)
  /\ (~ In i (map id prev) -> next = prev)
  /\ deleteTransaction false i prev = prev.
Proof.
  cbv zeta. cbn [deleteTransaction]. fold (keeps i).
  assert (K : forall t, keeps i t = true <-> id t <> i).
  { intros t. unfold keeps. rewrite negb_true_iff. apply String.eqb_neq. }
  split; [|split; [|split; [|split; [|split]]]].
  - apply Forall_forall. intros t Ht. apply filter_In in Ht. now apply K.
  - apply filter_filter_implied. auto.
  - reflexivity.
  - intros t. rewrite filter_In, K. reflexivity.
  - intros Hno. induction prev as [|t ts IH]; [reflexivity|].
    cbn [filter]. assert (Ht : keeps i t = true).
    { apply K. intros E. apply Hno. left. exact E. }
    rewrite Ht. f_equal. apply IH. intros Hin. apply Hno. now right.
  - reflexivity.
Qed.

Example deleteTransaction_sample :
  map id sampleLedger = ["r7d1n5y3k"; "b9x4j6s2l"]
  /\ map id (deleteTransaction true "r7d1n5y3k" sampleLedger) = ["b9x4j6s2l"]
  /\ deleteTransaction true "nosuchid0" sampleLedger = sampleLedger.
Proof. repeat split. Qed.

(* ================================================================== *)
(** ** Further properties of the store *)
(* ================================================================== *)

Lemma keeps_iff i t : keeps i t = true <-> id t <> i.
Proof. unfold keeps. rewrite negb_true_iff. apply String.eqb_neq. Qed.

Lemma filter_all {A} (f : A -> bool) (l : list A) :
  (forall x, In x l -> f x = true) -> filter f l = l.
Proof.
  induction l as [|x l IH]; intros H; [reflexivity|].
  cbn [filter]. rewrite (H x) by now left.
  f_equal. apply IH. intros y Hy. apply H. now right.
Qed.

Lemma filter_comm {A} (f g : A -> bool) (l : list A) :
  filter f (filter g l) = filter g (filter f l).
Proof.
  rewrite !filter_filter_andb. apply filter_ext. intros x. apply andb_comm.
Qed.

(** X1.  Deleting is idempotent and deletions of two ids commute. *)
Theorem deleteTransaction_idempotent_commutes (i j : string) (l : list Transaction) :
  deleteTransaction true i (deleteTransaction true i l) = deleteTransaction true i l
  /\ deleteTransaction true i (deleteTransaction true j l)
     = deleteTransaction true j (deleteTransaction true i l).
Proof.
  cbn [deleteTransaction]. fold (keeps i) (keeps j). split.
  - apply filter_filter_implied. auto.
  - apply filter_comm.
Qed.

(** X2.  Deleting the id of the record just added removes that record and
    whatever older records share the id; when no older record has it, the
    list is back to what it was. *)
Theorem delete_after_add (random36 nowISO : string) (t : PartialTransaction)
    (prev : list Transaction) :
  let i := Str.substr 2 9 random36 in
  deleteTransaction true i (addTransaction random36 nowISO t prev)
    = deleteTransaction true i prev
  /\ (~ In i (map id prev) ->
      deleteTransaction true i (addTransaction random36 nowISO t prev) = prev).
Proof.
  cbv zeta. unfold addTransaction. cbn [deleteTransaction filter newTransaction id].
  rewrite String.eqb_refl. cbn [negb]. split; [reflexivity|].
  intros Hfresh. fold (keeps (Str.substr 2 9 random36)).
  apply filter_all. intros x Hx. apply keeps_iff.
  intros E. apply Hfresh. rewrite <- E. now apply in_map.
Qed.

(** X3.  The ids of the list stay pairwise distinct under an addition
    exactly when they were distinct and the generated id is new to the
    list; nothing in the addition checks it.  A confirmed or declined
    deletion keeps distinct ids distinct. *)
Theorem ids_distinct_invariant (random36 nowISO : string) (t : PartialTransaction)
    (prev : list Transaction) :
  (NoDup (map id (addTransaction random36 nowISO t prev))
   <-> NoDup (map id prev) /\ ~ In (Str.substr 2 9 random36) (map id prev))
  /\ (forall confirmed i,
        NoDup (map id prev) -> NoDup (map id (deleteTransaction confirmed i prev))).
Proof.
  split.
  - unfold addTransaction. cbn [map newTransaction id].
    rewrite NoDup_cons_iff. tauto.
  - intros [|] i H; cbn [deleteTransaction]; [|exact H].
    induction prev as [|x l IH]; [constructor|].
    cbn [map] in H. apply NoDup_cons_iff in H. destruct H as [Hx Hl].
    cbn [filter]. destruct (negb (String.eqb (id x) i)); [|now apply IH].
    cbn [map]. constructor; [|now apply IH].
    intros Hin. apply Hx. apply in_map_iff in Hin.
    destruct Hin as [y [Hy Hin]]. apply filter_In in Hin.
    rewrite <- Hy. apply in_map. tauto.
Qed.

(* ================================================================== *)
(** ** Further properties of the AI bridge *)
(* ================================================================== *)

(** X4.  The analysis request covers the last [min 20 n] records of the
    list, in stored order; a list of at most twenty records is covered
    whole. *)
Theorem analysisWindow_suffix (ts : list Transaction) :
  firstn (List.length ts - 20)%nat ts ++ Bridge.analysisWindow ts = ts
  /\ List.length (Bridge.analysisWindow ts) = Nat.min 20 (List.length ts)
  /\ ((List.length ts <= 20)%nat -> Bridge.analysisWindow ts = ts).
Proof.
  rewrite analysisWindow_last20. split; [apply firstn_skipn|split].
  - rewrite length_skipn. lia.
  - intros H. replace (List.length ts - 20)%nat with 0%nat by lia. reflexivity.
Qed.

(** X5.  [analyzeSpending] issues no request on the empty list and exactly
    one otherwise; an exception of the service or of the parser gives
    [null], and a text the parser accepts gives its parse. *)
Theorem analyzeSpending_one_request toStr trim parse service ts :
  let out := Bridge.run service (Bridge.analyzeSpending toStr trim parse ts) in
  (snd out = [] <-> ts = [])
  /\ (ts <> [] -> snd out = [Bridge.analysisRequest toStr ts])
  /\ (service (Bridge.analysisRequest toStr ts) = Bridge.Threw -> fst out = None)
  /\ (forall s, ts <> [] ->
        service (Bridge.analysisRequest toStr ts) = Bridge.Text s ->
        fst out = parse (trim s)).
Proof.
  cbv zeta. destruct ts as [|t ts].
  - cbn. split; [tauto|split; [congruence|split; [reflexivity|congruence]]].
  - rewrite run_analyzeSpending by discriminate. cbn [fst snd].
    split; [split; discriminate|split; [reflexivity|split]].
    + intros ->. reflexivity.
    + intros s _ ->. reflexivity.
Qed.

(** X6.  [handleAiInput] never removes or changes a record: the list it
    leaves is the old one or the old one with one record in front.  A text
    that trims to nothing issues no request; any other text issues the one
    parse request, and the list is unchanged when the service throws or
    the parser gives [null]. *)
Theorem handleAiInput_frame trim parse random36 nowISO text prev service :
  let out := Bridge.run service
               (Bridge.handleAiInput trim parse random36 nowISO text prev) in
  (fst out = prev \/ exists t, fst out = addTransaction random36 nowISO t prev)
  /\ (Str.truthy (trim text) = false -> out = (prev, []))
  /\ (Str.truthy (trim text) = true -> snd out = [Bridge.parseRequest text])
  /\ (service (Bridge.parseRequest text) = Bridge.Threw -> fst out = prev)
  /\ (forall s, service (Bridge.parseRequest text) = Bridge.Text s ->
        parse (trim s) = None -> fst out = prev).
Proof.
  cbv zeta. unfold Bridge.handleAiInput, Bridge.parseNaturalLanguage.
  destruct (Str.truthy (trim text)).
  - cbn [Bridge.bind Bridge.run].
    destruct (service (Bridge.parseRequest text)) as [|s] eqn:R;
      cbn [Bridge.parsed].
    + cbn. split; [now left|]. repeat split; congruence.
    + destruct (parse (trim s)) as [t|] eqn:P; cbn.
      * split; [right; now exists t|].
        split; [discriminate|split; [reflexivity|split; [discriminate|]]].
        intros s' E. injection E as <-. congruence.
      * split; [now left|]. repeat split; congruence.
  - cbn. split; [now left|]. repeat split; congruence.
Qed.

(** X7.  While the analysis button is enabled, [requestAnalysis] issues
    exactly one request, built from at least three records; it leaves the
    transactions as they are and [loading] false, and a failure of the
    service replaces whatever analysis was shown by [null]. *)
Theorem requestAnalysis_enabled toStr trim parse service (st : App.State) :
  App.analysisDisabled st = false ->
  let out := Bridge.run service (App.requestAnalysis toStr trim parse st) in
  snd out = [Bridge.analysisRequest toStr (App.transactions st)]
  /\ App.transactions (fst out) = App.transactions st
  /\ App.loading (fst out) = false
  /\ (3 <= List.length (Bridge.analysisWindow (App.transactions st)))%nat
  /\ (service (Bridge.analysisRequest toStr (App.transactions st)) = Bridge.Threw ->
      App.aiAnalysis (fst out) = None).
Proof.
  unfold App.analysisDisabled. intros H.
  apply orb_false_iff in H. destruct H as [_ H]. apply Nat.ltb_ge in H.
  cbv zeta. unfold App.requestAnalysis, Bridge.analyzeSpending.
  destruct (App.transactions st) as [|t ts] eqn:E; [cbn in H; lia|].
  cbn [List.length Nat.eqb Bridge.bind Bridge.run fst snd
       App.transactions App.loading App.aiAnalysis].
  split; [reflexivity|split; [reflexivity|split; [reflexivity|split]]].
  - pose proof (analysisWindow_last20 (t :: ts)) as W. rewrite W.
    rewrite length_skipn. cbn [List.length] in *. lia.
  - intros ->. reflexivity.
Qed.

Lemma requestAnalysis_enabled_witness :
  App.analysisDisabled
    {| App.transactions := tiedLedger; App.loading := false;
       App.aiAnalysis := None |} = false
  /\ snd (Bridge.run (fun _ => Bridge.Threw)
            (App.requestAnalysis (fun _ => "0") (fun s => s) (fun _ => None)
               {| App.transactions := tiedLedger; App.loading := false;
                  App.aiAnalysis := None |}))
     = [Bridge.analysisRequest (fun _ => "0") tiedLedger].
Proof.
  split; [reflexivity|].
  exact (proj1 (@requestAnalysis_enabled (fun _ => "0") (fun s => s)
                  (fun _ => None) (fun _ => Bridge.Threw)
                  {| App.transactions := tiedLedger; App.loading := false;
                     App.aiAnalysis := None |} eq_refl)).
Defined.

(* ================================================================== *)
(** ** Further properties of the aggregation engine *)
(* ================================================================== *)

Lemma aggregateSpec_names ts :
  map name (aggregateSpec ts) = firstSeen (map category ts).
Proof.
  rewrite aggregateSpec_map, map_map. cbn [name entryOf]. apply map_id.
Qed.

(** X8.  The dashboard's [categoryData] has one entry for each category
    among the expenses of the current month, in the order the categories
    first occur in the list; no name occurs twice, and the value of an
    entry is the sum of the amounts of the month's expenses of that
    category. *)
Theorem categoryData_first_seen (nowISO : string) (transactions : list Transaction) :
  let expenses := filter isExpense (inMonth nowISO transactions) in
  let data := categoryData (stats nowISO transactions) in
  data = aggregateSpec expenses
  /\ map name data = firstSeen (map category expenses)
  /\ NoDup (map name data)
  /\ (forall c, In c (map name data) <-> In c (map category expenses))
  /\ (forall e, In e data ->
        value e = sumAmount (filter (fun t => String.eqb (category t) (name e)) expenses)).
Proof.
  cbv zeta. cbn [stats categoryData]. fold (inMonth nowISO transactions).
  rewrite categoryAggregate_spec, aggregateSpec_names.
  split; [reflexivity|split; [reflexivity|split; [apply firstSeen_NoDup|split]]].
  - intros c. apply firstSeen_In.
  - intros e He. rewrite aggregateSpec_map in He.
    apply in_map_iff in He. destruct He as [c [<- _]]. reflexivity.
Qed.

(** X9.  The dashboard and the report agree: when the current month is
    month [mm] of the report year, the report's [monthlyData] holds the
    entry of that month with the dashboard's income and expense. *)
Theorem dashboard_matches_monthlyData nowISO reportYear mm transactions :
  In mm months ->
  Str.substring0 7 nowISO = (Str.of_int reportYear ++ "-" ++ mm)%string ->
  In {| m_name := (mm ++ "月")%string;
        m_income := s_income (stats nowISO transactions);
        m_expense := s_expense (stats nowISO transactions) |}
     (monthlyData (reportStats reportYear transactions)).
Proof.
  intros Hmm Hnow.
  cbn [reportStats monthlyData]. unfold Arr.from_length.
  rewrite <- months_monthOf in Hmm. apply in_map_iff in Hmm.
  destruct Hmm as [i [<- Hi]].
  apply in_map_iff. exists i. split; [|exact Hi].
  unfold monthEntry. cbn [stats s_income s_expense]. rewrite Hnow.
  rewrite !month_filter, <- !filter_filter_andb. reflexivity.
Qed.

Lemma dashboard_matches_monthlyData_witness :
  In "03" months
  /\ Str.substring0 7 "2024-03-12T12:00:00.000Z" = (Str.of_int 2024 ++ "-" ++ "03")%string
  /\ In {| m_name := "03月";
           m_income := s_income (stats "2024-03-12T12:00:00.000Z" sampleLedger);
           m_expense := s_expense (stats "2024-03-12T12:00:00.000Z" sampleLedger) |}
        (monthlyData (reportStats 2024 sampleLedger)).
Proof.
  assert (H1 : In "03" months) by (cbn; tauto).
  assert (H2 : Str.substring0 7 "2024-03-12T12:00:00.000Z"
               = (Str.of_int 2024 ++ "-" ++ "03")%string) by reflexivity.
  split; [exact H1|split; [exact H2|]].
  exact (@dashboard_matches_monthlyData "2024-03-12T12:00:00.000Z" 2024 "03"
           sampleLedger H1 H2).
Defined.

(* ---------- the first five categories ---------- *)


Lemma inYear_finite reportYear transactions :
  Forall finiteAmount transactions ->
  Forall finiteAmount (inYear reportYear transactions).
Proof.
  rewrite !Forall_forall. intros H t Ht. apply H.
  apply filter_In in Ht. tauto.
Qed.


(* ---------- the months of a year ---------- *)

Lemma monthlyData_months reportYear transactions :
  monthlyData (reportStats reportYear transactions)
  = map (monthSpec reportYear transactions) months.
Proof.
  cbn [reportStats monthlyData]. unfold Arr.from_length.
  rewrite <- months_monthOf, map_map.
  apply map_ext. intros i.
  unfold monthEntry, monthSpec, ofTypeWithPrefix.
  now rewrite !month_filter.
Qed.

Lemma prefix_same_length p q s :
  String.prefix p s = true -> String.prefix q s = true ->
  String.length p = String.length q -> p = q.
Proof.
  revert q s. induction p as [|a p IH]; intros [|b q] s; cbn [String.length];
    try discriminate; [reflexivity|].
  destruct s as [|c s]; cbn [String.prefix]; [discriminate|].
  destruct (ascii_dec a c) as [->|]; [|discriminate].
  destruct (ascii_dec b c) as [->|]; [|discriminate].
  intros Hp Hq Hl. f_equal. apply (IH q s Hp Hq). now injection Hl.
Qed.

Lemma datedInMonth_false reportYear t mm :
  datedInMonth reportYear t = false -> In mm months ->
  Str.startsWith (date t) (Str.of_int reportYear ++ "-" ++ mm)%string = false.
Proof.
  unfold datedInMonth. intros H Hmm.
  destruct (Str.startsWith _ _) eqn:P; [|reflexivity].
  assert (E : existsb (fun mm => Str.startsWith (date t)
                (Str.of_int reportYear ++ "-" ++ mm)%string) months = true).
  { apply existsb_exists. now exists mm. }
  congruence.
Qed.

(* ---------- the year of a date ---------- *)

Lemma to_int_valid (z : Z) :
  Z.to_int z <> Decimal.Pos Decimal.Nil /\ Z.to_int z <> Decimal.Neg Decimal.Nil.
Proof.
  pose proof (DecimalZ.to_of (Z.to_int z)) as N.
  rewrite DecimalZ.of_to in N.
  split; intros E; rewrite E in N; discriminate N.
Qed.

Lemma of_int_inj (a b : Z) : Str.of_int a = Str.of_int b -> a = b.
Proof.
  unfold Str.of_int. intros E.
  destruct (to_int_valid a) as [A1 A2]. destruct (to_int_valid b) as [B1 B2].
  pose proof (NilZero.isi _ A1 A2) as Ia. pose proof (NilZero.isi _ B1 B2) as Ib.
  rewrite E, Ib in Ia. injection Ia as Ia.
  symmetry. now apply DecimalZ.to_int_inj.
Qed.

Lemma of_int_four_digits (y : Z) :
  (1000 <= y <= 9999)%Z -> String.length (Str.of_int y) = 4%nat.
Proof.
  intros Hy.
  assert (All : forallb (fun n => Nat.eqb (String.length
                           (Str.of_int (1000 + Z.of_nat n))) 4)
                        (seq 0 (Z.to_nat 9000)) = true) by (vm_compute; reflexivity).
  rewrite forallb_forall in All.
  specialize (All (Z.to_nat (y - 1000))).
  replace (1000 + Z.of_nat (Z.to_nat (y - 1000)))%Z with y in All by lia.
  apply Nat.eqb_eq, All. apply in_seq. lia.
Qed.

Lemma prefix_append (p r : string) : String.prefix p (p ++ r)%string = true.
Proof.
  induction p as [|c p IH]; [now destruct r|].
  cbn [append String.prefix]. destruct (ascii_dec c c); [exact IH|congruence].
Qed.

(** X15.  For a report year of four digits and a date that starts with a
    year of four digits followed by a dash, the year filter keeps the
    transaction exactly when the two years are the same. *)
Theorem year_filter_exact (reportYear y : Z) (rest : string) (t : Transaction) :
  (1000 <= reportYear <= 9999)%Z -> (1000 <= y <= 9999)%Z ->
  date t = (Str.of_int y ++ "-" ++ rest)%string ->
  (Str.startsWith (date t) (Str.of_int reportYear) = true <-> reportYear = y).
Proof.
  intros Hr Hy Hd. rewrite Hd. unfold Str.startsWith. split.
  - intros P. apply of_int_inj.
    apply (@prefix_same_length _ _ (Str.of_int y ++ "-" ++ rest)%string P).
    + apply prefix_append.
    + now rewrite !of_int_four_digits.
  - intros ->. apply prefix_append.
Qed.

Lemma year_filter_exact_witness :
  (1000 <= 2024 <= 9999)%Z
  /\ (Str.startsWith "2024-03-10" (Str.of_int 2024) = true <-> 2024%Z = 2024%Z).
Proof.
  assert (H : (1000 <= 2024 <= 9999)%Z) by lia.
  split; [exact H|].
  exact (@year_filter_exact 2024 2024 "03-10"
           {| id := "r7d1n5y3k"; date := "2024-03-10"; amount := JS.of_Z 40;
              category := "飲食"; type := expense; note := "" |}
           H H eq_refl).
Defined.

(** A report year of fewer digits also keeps the dates of later years that
    start with its digits. *)
Example year_filter_short_year :
  map date (inYear 202 sampleLedger) = ["2024-03-10"; "2024-03-05"].
Proof. reflexivity. Qed.

(* ================================================================== *)
(** ** The store and the figures together *)
(* ================================================================== *)

(** X17.  Once the list holds twenty records, a record added to it never
    reaches the analysis: the request built after the addition is the one
    built before it. *)
Theorem analysis_ignores_added_record toStr random36 nowISO t prev :
  (20 <= List.length prev)%nat ->
  Bridge.analysisWindow (addTransaction random36 nowISO t prev)
    = Bridge.analysisWindow prev
  /\ Bridge.analysisRequest toStr (addTransaction random36 nowISO t prev)
    = Bridge.analysisRequest toStr prev.
Proof.
  intros H.
  assert (W : Bridge.analysisWindow (addTransaction random36 nowISO t prev)
              = Bridge.analysisWindow prev).
  { rewrite !analysisWindow_last20. unfold addTransaction. cbn [List.length].
    replace (S (List.length prev) - 20)%nat with (S (List.length prev - 20)) by lia.
    reflexivity. }
  split; [exact W|].
  unfold Bridge.analysisRequest, Bridge.analysisSummary. now rewrite W.
Qed.

Lemma analysis_ignores_added_record_witness :
  (20 <= List.length (ledgerOf 20))%nat
  /\ Bridge.analysisWindow
       (addTransaction "0.k3v9zq1x7mb" "2024-05-01T09:30:00.000Z"
          (candidate "2024-05-01" 12 "交通" expense) (ledgerOf 20))
     = Bridge.analysisWindow (ledgerOf 20).
Proof.
  assert (H : (20 <= List.length (ledgerOf 20))%nat) by (cbn; lia).
  split; [exact H|].
  exact (proj1 (@analysis_ignores_added_record (fun _ => "0")
           "0.k3v9zq1x7mb" "2024-05-01T09:30:00.000Z"
           (candidate "2024-05-01" 12 "交通" expense) (ledgerOf 20) H)).
Defined.

Lemma expense_filter_cons (P : Transaction -> bool) n prev :
  isExpense n = false ->
  filter isExpense (filter P (n :: prev)) = filter isExpense (filter P prev).
Proof.
  intros H. cbn [filter]. destruct (P n); [|reflexivity].
  cbn [filter]. now rewrite H.
Qed.

(** X18.  Adding an income leaves every expense figure as it is: the
    dashboard's expense and [categoryData], and the report's
    [totalYearExpense], [yearlyCategoryData] and monthly expenses. *)
Theorem income_leaves_expenses random36 nowISO t prev now reportYear :
  p_type t = Some income ->
  let next := addTransaction random36 nowISO t prev in
  s_expense (stats now next) = s_expense (stats now prev)
  /\ categoryData (stats now next) = categoryData (stats now prev)
  /\ totalYearExpense (reportStats reportYear next)
     = totalYearExpense (reportStats reportYear prev)
  /\ yearlyCategoryData (reportStats reportYear next)
     = yearlyCategoryData (reportStats reportYear prev)
  /\ map m_expense (monthlyData (reportStats reportYear next))
     = map m_expense (monthlyData (reportStats reportYear prev)).
Proof.
  intros Hty next. unfold next, addTransaction.
  set (n := newTransaction random36 nowISO t).
  assert (Hn : isExpense n = false).
  { unfold isExpense, n, newTransaction. cbn [type]. now rewrite Hty. }
  cbn [stats s_expense categoryData reportStats totalYearExpense yearlyCategoryData].
  unfold categoryAggregate.
  rewrite !(@expense_filter_cons _ n prev Hn).
  split; [reflexivity|split; [reflexivity|split; [reflexivity|split; [reflexivity|]]]].
  rewrite !monthlyData_months, !map_map. apply map_ext. intros mm.
  cbn [monthSpec m_expense]. unfold ofTypeWithPrefix. cbn [filter].
  unfold isExpense in Hn. now rewrite Hn.
Qed.

Lemma income_leaves_expenses_witness :
  p_type (candidate "2024-03-20" 500 "薪資" income) = Some income
  /\ categoryData (stats "2024-03-21T08:00:00.000Z"
       (addTransaction "0.k3v9zq1x7mb" "2024-03-21T08:00:00.000Z"
          (candidate "2024-03-20" 500 "薪資" income) sampleLedger))
     = categoryData (stats "2024-03-21T08:00:00.000Z" sampleLedger).
Proof.
  split; [reflexivity|].
  exact (proj1 (proj2 (@income_leaves_expenses "0.k3v9zq1x7mb"
           "2024-03-21T08:00:00.000Z" (candidate "2024-03-20" 500 "薪資" income)
           sampleLedger "2024-03-21T08:00:00.000Z" 2024 eq_refl))).
Defined.

(** X19.  An expense of the current month put at the head of the list puts
    its category at the head of [categoryData]; the other categories
    follow in the order they had. *)
Theorem newest_expense_heads_categoryData now n prev :
  isExpense n = true ->
  Str.startsWith (date n) (Str.substring0 7 now) = true ->
  map name (categoryData (stats now (n :: prev)))
  = category n
      :: filter (fun d => negb (String.eqb d (category n)))
           (map name (categoryData (stats now prev))).
Proof.
  intros He Hm. cbn [stats categoryData].
  rewrite !categoryAggregate_spec, !aggregateSpec_names.
  cbn [filter]. rewrite Hm. cbn [filter]. rewrite He. reflexivity.
Qed.

Lemma newest_expense_heads_categoryData_witness :
  isExpense (newTransaction "0.k3v9zq1x7mb" "2024-03-21T08:00:00.000Z"
               (candidate "2024-03-20" 12 "交通" expense)) = true
  /\ map name (categoryData (stats "2024-03-21T08:00:00.000Z"
       (addTransaction "0.k3v9zq1x7mb" "2024-03-21T08:00:00.000Z"
          (candidate "2024-03-20" 12 "交通" expense) sampleLedger)))
     = ["交通"; "飲食"].
Proof.
  split; [reflexivity|].
  exact (@newest_expense_heads_categoryData "2024-03-21T08:00:00.000Z"
           (newTransaction "0.k3v9zq1x7mb" "2024-03-21T08:00:00.000Z"
              (candidate "2024-03-20" 12 "交通" expense))
           sampleLedger eq_refl eq_refl).
Defined.

(* ================================================================== *)
(** ** The figures over binary64 numbers: sums and categories *)
(* ================================================================== *)

Module F64Facts.
Import F64.

Lemma f64_fold_sumFrom (ts : list Transaction) (a : float) :
  fold_left (fun sum t => PrimFloat.add sum (amount t)) ts a
  = sumFrom a (map amount ts).
Proof.
  revert a. induction ts as [|t ts IH]; intros a; [reflexivity|].
  cbn [fold_left map sumFrom]. apply IH.
Qed.

Lemma f64_sumAmount_sumOf (ts : list Transaction) :
  sumAmount ts = sumOf (map amount ts).
Proof. apply f64_fold_sumFrom. Qed.










Lemma f64_expenses_of (p : string) ts :
  filter isExpense (filter (fun t => Str.startsWith (date t) p) ts)
  = ofTypeWithPrefix expense p ts.
Proof. apply filter_filter_andb. Qed.

Lemma f64_incomes_of (p : string) ts :
  filter isIncome (filter (fun t => Str.startsWith (date t) p) ts)
  = ofTypeWithPrefix income p ts.
Proof. apply filter_filter_andb. Qed.



Section SortPerm.
Context {A : Type}.
Variable cmp : A -> A -> float.



End SortPerm.

(** [Math.round] gives the nearest integer, a half going up. *)
Lemma f64_Math_round_spec (x : float) : roundedHalfUp x (Math_round x).
Proof.
  unfold roundedHalfUp, Math_round.
  destruct (Prim2SF x) as [s| | |s m e]; try reflexivity.
  destruct (e <? 0)%Z eqn:He; [|reflexivity].
  exists ((2 * (if s then Z.neg m else Z.pos m) + 2 ^ (- e)) / (2 * 2 ^ (- e)))%Z.
  split; [|reflexivity].
  unfold nearestHalfUp. cbv zeta.
  set (d := (2 ^ (- e))%Z). set (sm := if s then Z.neg m else Z.pos m).
  assert (Hd : (0 < d)%Z) by (apply Z.pow_pos_nonneg; apply Z.ltb_lt in He; lia).
  pose proof (Z.div_mod (2 * sm + d) (2 * d)) as DM.
  pose proof (Z.mod_pos_bound (2 * sm + d) (2 * d)) as MB.
  set (q := ((2 * sm + d) / (2 * d))%Z) in *.
  set (r := ((2 * sm + d) mod (2 * d))%Z) in *.
  specialize (DM ltac:(lia)). specialize (MB ltac:(lia)). nia.
Qed.

End F64Facts.


Example category_values_dimes :
  F64.sumValue
    (F64.categoryData (F64.stats "2024-03-12T12:00:00.000Z" F64.dimes))
    = PrimFloat.next_up (F64.ratio 13 10)
  /\ F64.s_expense (F64.stats "2024-03-12T12:00:00.000Z" F64.dimes)
     = F64.ratio 13 10
  /\ F64.sumValue (F64.yearlyCategoryData (F64.reportStats 2024 F64.dimes))
     = PrimFloat.next_up (F64.ratio 13 10)
  /\ F64.totalYearExpense (F64.reportStats 2024 F64.dimes) = F64.ratio 13 10.
Proof. vm_compute. repeat split. Qed.


(* ================================================================== *)
(** ** The savings rate over binary64 numbers *)
(* ================================================================== *)

(** C8.  With [I] and [E] the sums of [amount] over the incomes and over the
    expenses of the report year, the savings rate shown is
    [(I - E) / I * 100], computed in binary64, rounded to the nearest
    integer with a half going up when [I > 0]; it is [0] when [I] is [0]
    (of either sign), and whenever [I > 0] does not hold. *)
Theorem savingsRate_rounds_ratio (reportYear : Z) (transactions : list F64.Transaction) :
  let I := F64.sumOf (map F64.amount (F64.yearIncomes reportYear transactions)) in
  let E := F64.sumOf (map F64.amount (F64.yearExpenses reportYear transactions)) in
  let r := F64.reportStats reportYear transactions in
  F64.totalYearIncome r = I
  /\ F64.totalYearExpense r = E
  /\ (F64.gt I F64.zero = true ->
      F64.roundedHalfUp
        (PrimFloat.mul (PrimFloat.div (PrimFloat.sub I E) I) (F64.of_Z 100))
        (F64.savingsRate r))
  /\ (I = F64.zero \/ I = PrimFloat.opp F64.zero -> F64.savingsRate r = F64.zero)
  /\ (F64.gt I F64.zero = false -> F64.savingsRate r = F64.zero).
Proof.
  intros I E r.
  assert (HI : F64.totalYearIncome r = I).
  { cbn [r F64.reportStats F64.totalYearIncome].
    now rewrite F64Facts.f64_incomes_of, F64Facts.f64_sumAmount_sumOf. }
  assert (HE : F64.totalYearExpense r = E).
  { cbn [r F64.reportStats F64.totalYearExpense].
    now rewrite F64Facts.f64_expenses_of, F64Facts.f64_sumAmount_sumOf. }
  split; [exact HI|split; [exact HE|]].
  unfold F64.savingsRate. rewrite HI, HE.
  split; [|split].
  - intros ->. apply F64Facts.f64_Math_round_spec.
  - intros [-> | ->]; reflexivity.
  - intros ->. reflexivity.
Qed.

(** Income 40 and expense 17: the quotient times 100 is 57.49999999999999
    in binary64 and the rate shown is 57. *)
Example savingsRate_forty_seventeen :
  F64.savingsRate (F64.reportStats 2024 F64.fortySeventeen) = F64.of_Z 57
  /\ PrimFloat.ltb
       (PrimFloat.mul (PrimFloat.div (PrimFloat.sub (F64.of_Z 40) (F64.of_Z 17))
                                     (F64.of_Z 40)) (F64.of_Z 100))
       (F64.ratio 575 10) = true
  /\ F64.savingsRate (F64.reportStats 2023 F64.fortySeventeen) = F64.zero.
Proof. vm_compute. repeat split. Qed.

(* ================================================================== *)
(** ** The months of the report *)
(* ================================================================== *)

Lemma fold_sumFrom (ts : list Transaction) (a : JS.number) :
  fold_left (fun sum t => JS.add sum (amount t)) ts a = sumFrom a (map amount ts).
Proof.
  revert a. induction ts as [|t ts IH]; intros a; [reflexivity|].
  cbn [fold_left map sumFrom]. apply IH.
Qed.

(** The reducer of the totals adds the amounts up from [0] in list order. *)
Lemma sumAmount_sumOf (ts : list Transaction) :
  sumAmount ts = sumOf (map amount ts).
Proof. apply fold_sumFrom. Qed.

(** C3.  [monthlyData] is the list of the twelve entries of the months
    [01] to [12], in that order; the entry of a month holds the sum of
    [amount] over the incomes, and over the expenses, whose date starts
    with the year, a dash and the month, and it is there with both sums
    [0] when no date does. *)
Theorem monthlyData_sums_by_month (reportYear : Z) (transactions : list Transaction) :
  let r := reportStats reportYear transactions in
  monthlyData r = map (monthFigures reportYear transactions) months
  /\ List.length (monthlyData r) = 12%nat
  /\ map m_name (monthlyData r)
     = ["01月"; "02月"; "03月"; "04月"; "05月"; "06月";
        "07月"; "08月"; "09月"; "10月"; "11月"; "12月"]
  /\ (forall mm,
        (forall t, In t transactions ->
           Str.startsWith (date t) (Str.of_int reportYear ++ "-" ++ mm)%string = false) ->
        monthFigures reportYear transactions mm
        = {| m_name := (mm ++ "月")%string; m_income := JS.zero; m_expense := JS.zero |}).
Proof.
  assert (E : monthlyData (reportStats reportYear transactions)
              = map (monthFigures reportYear transactions) months).
  { rewrite monthlyData_months. apply map_ext. intros mm.
    unfold monthSpec, monthFigures. now rewrite !sumAmount_sumOf. }
  cbv zeta. split; [exact E|split; [|split]].
  - rewrite E, length_map. reflexivity.
  - rewrite E, map_map. reflexivity.
  - intros mm Hnone. unfold monthFigures, ofTypeWithPrefix.
    rewrite !filter_none; [reflexivity| |];
      intros t Ht; rewrite (Hnone t Ht); apply andb_false_r.
Qed.

(** The December scenario, figure by figure. *)
Example monthlyData_december_fifty :
  nth 11 (monthlyData (reportStats 2024 decemberLedger))
      {| m_name := ""; m_income := JS.NaN; m_expense := JS.NaN |}
  = {| m_name := "12月"; m_income := JS.zero;
       m_expense := JS.add JS.zero (JS.of_Z 50) |}
  /\ JS.strictEq (JS.add JS.zero (JS.of_Z 50)) (JS.of_Z 50) = true.
Proof. split; reflexivity. Qed.

(* ================================================================== *)
(** ** The order of the year's categories *)
(* ================================================================== *)





(** Finite amounts never sum to [NaN]. *)
Lemma finite_amounts_have_numbers reportYear transactions :
  Forall finiteAmount transactions ->
  Forall hasNumber (aggregateSpec (filter isExpense (inYear reportYear transactions))).
Proof.
  intros H. rewrite <- categoryAggregate_spec.
  apply categoryAggregate_finite. now apply inYear_finite.
Qed.


(** X14.  A transaction whose date starts with the report year but goes on
    with none of the twelve month prefixes is among the transactions of
    the year and in no month: [monthlyData] is what it is without it,
    while an expense of this kind has its category in [yearlyCategoryData]
    and its amount in [totalYearExpense]. *)
Theorem undated_counts_in_year_only reportYear t transactions :
  Str.startsWith (date t) (Str.of_int reportYear) = true ->
  datedInMonth reportYear t = false ->
  monthlyData (reportStats reportYear (t :: transactions))
    = monthlyData (reportStats reportYear transactions)
  /\ inYear reportYear (t :: transactions) = t :: inYear reportYear transactions
  /\ (isExpense t = true ->
      In (category t)
         (map name (yearlyCategoryData (reportStats reportYear (t :: transactions))))
      /\ totalYearExpense (reportStats reportYear (t :: transactions))
         = sumOf (amount t
                    :: map amount (filter isExpense (inYear reportYear transactions)))).
Proof.
  intros Y D.
  assert (I : inYear reportYear (t :: transactions)
              = t :: inYear reportYear transactions).
  { unfold inYear. cbn [filter]. now rewrite Y. }
  split; [|split; [exact I|]].
  - rewrite !monthlyData_months. apply map_ext_in. intros mm Hmm.
    unfold monthSpec, ofTypeWithPrefix. cbn [filter].
    now rewrite (@datedInMonth_false _ _ _ D Hmm), !andb_false_r.
  - intros He. split.
    + apply (Permutation_in (l := map name (aggregateSpec
               (filter isExpense (inYear reportYear (t :: transactions)))))).
      * apply Permutation_map, Permutation_sym, yearlyCategoryData_perm.
      * rewrite aggregateSpec_names, I. cbn [filter]. rewrite He.
        cbn [map firstSeen]. now left.
    + cbn [reportStats totalYearExpense]. fold (inYear reportYear (t :: transactions)).
      rewrite I, sumAmount_sumOf. cbn [filter]. now rewrite He.
Qed.

Lemma undated_counts_in_year_only_witness :
  Str.startsWith "2024/05/01" (Str.of_int 2024) = true
  /\ monthlyData (reportStats 2024
       (newTransaction "0.k3v9zq1x7mb" "2024-05-01T09:30:00.000Z"
          (candidate "2024/05/01" 12 "交通" expense) :: sampleLedger))
     = monthlyData (reportStats 2024 sampleLedger).
Proof.
  split; [reflexivity|].
  exact (proj1 (@undated_counts_in_year_only 2024
           (newTransaction "0.k3v9zq1x7mb" "2024-05-01T09:30:00.000Z"
              (candidate "2024/05/01" 12 "交通" expense))
           sampleLedger eq_refl eq_refl)).
Defined.

(* ================================================================== *)
(** ** The record an addition builds *)
(* ================================================================== *)

(** The part of a string before its first [T]. *)
Lemma split_head_before (c : ascii) (day rest : string) :
  lacks c day = true ->
  Str.split_head c (day ++ String c rest) = day.
Proof.
  induction day as [|a day IH]; cbn [append Str.split_head lacks].
  - intros _. now rewrite Ascii.eqb_refl.
  - intros H. apply andb_true_iff in H. destruct H as [Ha Hd].
    apply negb_true_iff in Ha. rewrite Ha. f_equal. now apply IH.
Qed.

Lemma substring_prefix (tok rest : string) :
  String.substring 0 (String.length tok) (tok ++ rest) = tok.
Proof.
  induction tok as [|a tok IH]; cbn [append String.length String.substring].
  - now destruct rest.
  - now rewrite IH.
Qed.

Lemma substring_whole (n : nat) (tok : string) :
  (String.length tok <= n)%nat -> String.substring 0 n tok = tok.
Proof.
  revert n. induction tok as [|a tok IH]; intros n H.
  - now destruct n.
  - destruct n as [|n]; cbn [String.length] in H; [lia|].
    cbn [String.substring]. f_equal. apply IH. lia.
Qed.

(** A number other than [0] and [NaN] is kept by [x || 0]. *)
Lemma num_or_keeps (a : JS.number) :
  a <> JS.NaN -> a <> JS.zero -> num_or a JS.zero = a.
Proof.
  intros Hn Hz. unfold num_or.
  destruct a as [q| | |]; try reflexivity; [|congruence].
  cbn [JS.truthy]. unfold JS.Qc_sign.
  destruct (Qccompare q (Q2Qc 0)) eqn:E; try reflexivity.
  exfalso. apply Hz. apply Qceq_alt in E. now subst.
Qed.

(** C7.  [addTransaction] puts the new record at the head of the list and
    leaves the records already there as they are.  The id of the new
    record is the nine characters that follow [0.] in the random token
    (all of them when there are fewer), whatever the candidate holds.  A
    field the candidate lacks, or holds as the empty string or as [0] or
    [NaN], gets its default: the part of the current time before its [T],
    which is the day; amount [0]; category [其它]; type [expense]; an
    empty note.  Any other field of the candidate is kept. *)
Theorem addTransaction_defaults
    (random36 nowISO : string) (t : PartialTransaction) (prev : list Transaction) :
  let n := newTransaction random36 nowISO t in
  addTransaction random36 nowISO t prev = n :: prev
  /\ (forall tok rest,
        random36 = ("0." ++ tok ++ rest)%string ->
        String.length tok = 9%nat
        \/ (rest = EmptyString /\ (String.length tok <= 9)%nat) ->
        id n = tok)
  /\ (forall day rest,
        nowISO = (day ++ "T" ++ rest)%string -> lacks "T" day = true ->
        blank (p_date t) -> date n = day)
  /\ (p_amount t = None \/ p_amount t = Some JS.NaN \/ p_amount t = Some JS.zero ->
      amount n = JS.zero)
  /\ (blank (p_category t) -> category n = "其它")
  /\ (p_type t = None -> type n = expense)
  /\ (blank (p_note t) -> note n = "")
  /\ (forall d, p_date t = Some d -> d <> "" -> date n = d)
  /\ (forall a, p_amount t = Some a -> a <> JS.NaN -> a <> JS.zero -> amount n = a)
  /\ (forall c, p_category t = Some c -> c <> "" -> category n = c)
  /\ (forall ty, p_type t = Some ty -> type n = ty)
  /\ (forall s, p_note t = Some s -> note n = s).
Proof.
  cbv zeta. unfold addTransaction, newTransaction, blank.
  cbn [id date amount category type note].
  repeat match goal with |- _ /\ _ => split end.
  - reflexivity.
  - intros tok rest -> H. unfold Str.substr.
    change (String.substring 2 9 ("0." ++ tok ++ rest))
      with (String.substring 0 9 (tok ++ rest)).
    destruct H as [H|[-> H]].
    + rewrite <- H. apply substring_prefix.
    + replace (tok ++ "")%string with tok by (clear; induction tok as [|a s IH];
        [reflexivity|cbn [append]; now rewrite <- IH]).
      now apply substring_whole.
  - intros day rest -> Hday Hblank.
    assert (D : Str.split_head "T" (day ++ "T" ++ rest) = day)
      by now apply split_head_before.
    destruct Hblank as [-> | ->]; exact D.
  - intros [-> | [-> | ->]]; reflexivity.
  - intros [-> | ->]; reflexivity.
  - intros ->. reflexivity.
  - intros [-> | ->]; reflexivity.
  - intros d -> Hd. destruct d; [congruence|reflexivity].
  - intros a -> Hn Hz. cbn [Number]. now apply num_or_keeps.
  - intros c -> Hc. destruct c; [congruence|reflexivity].
  - intros ty ->. reflexivity.
  - intros s ->. now destruct s.
Qed.

(** A candidate with an id, an empty date and an empty category: the id
    is generated, the date is the day of the current time and the category
    the fallback. *)
Example addTransaction_blank_candidate :
  addTransaction "0.k3v9zq1x7mbw" "2024-05-01T09:30:00.000Z"
    {| p_id := Some "mine"; p_date := Some ""; p_amount := Some JS.NaN;
       p_category := Some ""; p_type := None; p_note := None |} []
  = [ {| id := "k3v9zq1x7"; date := "2024-05-01"; amount := JS.zero;
         category := "其它"; type := expense; note := "" |} ].
Proof. reflexivity. Qed.

(** C9, as the code has it.  [addTransaction] stores an amount that is a
    number other than [0] and [NaN] as it is, so the record it builds has
    an amount of at least [0] exactly when the candidate's amount is
    missing, [NaN] or at least [0]; a store whose amounts are all at least
    [0] stays so under an addition exactly when the candidate is of that
    kind, and under every deletion.  The totals add the stored amounts up
    as they are, the type deciding only which total an amount goes to; the
    balance is the income less the expense. *)
Theorem addTransaction_keeps_amount_sign random36 nowISO t prev :
  Forall (fun x => nonNegative x = true) prev ->
  let n := newTransaction random36 nowISO t in
  (forall a, p_amount t = Some a -> a <> JS.NaN -> a <> JS.zero -> amount n = a)
  /\ nonNegative n = amountAcceptable t
  /\ (amountAcceptable t = true <->
      Forall (fun x => nonNegative x = true) (addTransaction random36 nowISO t prev))
  /\ (forall confirmed i,
        Forall (fun x => nonNegative x = true) (deleteTransaction confirmed i prev))
  /\ (forall now reportYear l,
        s_income (stats now l)
          = sumOf (map amount (ofTypeWithPrefix income (Str.substring0 7 now) l))
        /\ s_expense (stats now l)
          = sumOf (map amount (ofTypeWithPrefix expense (Str.substring0 7 now) l))
        /\ s_balance (stats now l)
          = JS.sub (s_income (stats now l)) (s_expense (stats now l))
        /\ totalYearIncome (reportStats reportYear l)
          = sumOf (map amount (ofTypeWithPrefix income (Str.of_int reportYear) l))
        /\ totalYearExpense (reportStats reportYear l)
          = sumOf (map amount (ofTypeWithPrefix expense (Str.of_int reportYear) l))).
Proof.
  intros Hprev n.
  split; [|split; [apply newTransaction_nonNegative|split; [|split]]].
  - intros a Ha Hn Hz. unfold n, newTransaction. cbn [amount].
    rewrite Ha. cbn [Number]. now apply num_or_keeps.
  - unfold addTransaction. rewrite <- (newTransaction_nonNegative random36 nowISO t).
    split.
    + intros H. now constructor.
    + intros H. now inversion H.
  - intros [|] i; cbn [deleteTransaction]; [|assumption].
    rewrite Forall_forall in *. intros x Hx. apply Hprev.
    apply filter_In in Hx. tauto.
  - intros now reportYear l.
    cbn [stats s_income s_expense s_balance reportStats totalYearIncome
         totalYearExpense].
    rewrite !sumAmount_sumOf. unfold ofTypeWithPrefix, isIncome, isExpense.
    rewrite !filter_filter_andb. repeat split.
Qed.

Lemma addTransaction_keeps_amount_sign_witness :
  Forall (fun x => nonNegative x = true) sampleLedger
  /\ amount (newTransaction "0.k3v9zq1x7mb" "2024-05-01T09:30:00.000Z"
               (candidate "2024-05-01" (-5) "交通" expense)) = JS.of_Z (-5)
  /\ Forall (fun x => nonNegative x = true)
       (addTransaction "0.k3v9zq1x7mb" "2024-05-01T09:30:00.000Z"
          (candidate "2024-05-01" 12 "交通" expense) sampleLedger).
Proof.
  assert (H : Forall (fun x => nonNegative x = true) sampleLedger)
    by (repeat constructor).
  split; [exact H|split].
  - apply (proj1 (@addTransaction_keeps_amount_sign
             "0.k3v9zq1x7mb" "2024-05-01T09:30:00.000Z"
             (candidate "2024-05-01" (-5) "交通" expense) sampleLedger H)
             (JS.of_Z (-5)) eq_refl); discriminate.
  - apply (proj1 (proj1 (proj2 (proj2 (@addTransaction_keeps_amount_sign
             "0.k3v9zq1x7mb" "2024-05-01T09:30:00.000Z"
             (candidate "2024-05-01" 12 "交通" expense) sampleLedger H))))).
    reflexivity.
Defined.
